(** * io_scene_3ds: the operator, panel and menu glue of the 3DS add-on

    A shallow embedding of [io_scene_3ds/__init__.py].  The add-on binds the
    3DS codec ([import_3ds.load], [export_3ds.save]) to the host application:
    two operators gather a keyword record and an axis matrix and call the
    codec, four panels show property widgets, two callbacks extend the
    import and export menus, and [register]/[unregister] install and remove
    all of it.

    Python exceptions are values of [exn]; a call that may raise returns a
    [result].  Keyword records ([**keywords]) are finite maps from names to
    values, the host's class table is a finite set of class names, and a menu's
    draw functions and a layout's widgets are lists, where order matters. *)

From Stdlib Require Import ZArith Ascii String List.
From Stdlib Require Import Floats.PrimFloat.
From stdpp Require Import gmap strings list fin_maps.

#[local] Set Warnings "-clear-no-such-hyp".

Local Open Scope string_scope.
Local Open Scope Z_scope.

(** ** Python values and exceptions *)

Inductive exn : Type :=
| AttributeError (msg : string)
| TypeError (msg : string)
| KeyError (key : string)
| IndexError (msg : string)
| ValueError (msg : string)
| RuntimeError (msg : string)
| AssertionError
| Exception (msg : string).

Inductive result (A : Type) : Type :=
| Ok (a : A)
| Raise (e : exn).

Arguments Ok {A} a.
Arguments Raise {A} e.

Definition bind {A B : Type} (r : result A) (k : A -> result B) : result B :=
  match r with
  | Ok a => k a
  | Raise e => Raise e
  end.

Declare Scope py_scope.
Delimit Scope py_scope with py.
Notation "'let?' x ':=' r 'in' k" := (bind r (fun x => k))
  (at level 10, x name, r at level 100, k at level 200) : py_scope.
Local Open Scope py_scope.

(** Code that also changes a mutable object (a layout, the host's tables, the
    scene) threads that object: it may raise after part of its changes. *)
Definition Run (S A : Type) : Type := S -> result A * S.

Definition run_ret {S A : Type} (a : A) : Run S A := fun s => (Ok a, s).

Definition run_raise {S A : Type} (e : exn) : Run S A := fun s => (Raise e, s).

Definition run_bind {S A B : Type} (c : Run S A) (k : A -> Run S B) : Run S B :=
  fun s =>
    match c s with
    | (Ok a, s') => k a s'
    | (Raise e, s') => (Raise e, s')
    end.

Definition run_lift {S A : Type} (r : result A) : Run S A := fun s => (r, s).

Definition modify {S : Type} (f : S -> S) : Run S unit := fun s => (Ok tt, f s).

Notation "'do' x '<-' c ';' k" := (run_bind c (fun x => k))
  (at level 10, x name, c at level 100, k at level 200) : py_scope.
Notation "c '>>' k" := (run_bind c (fun _ => k))
  (at level 100, k at level 200, right associativity) : py_scope.

(** A [mathutils.Matrix]: its rows, each a list of floats. *)
Definition Matrix : Type := list (list float).

(** What an operator property, or a keyword passed to the codec, can hold. *)
Inductive value : Type :=
| VBool (b : bool)
| VFloat (f : float)
| VStr (s : string)
| VStruct (rna_name : string)
| VMatrix (m : Matrix).

(** ** Host library: mathutils and bpy_extras.io_utils *)

Module mathutils.

Definition entry (m : Matrix) (i j : nat) : option float :=
  match m !! i with
  | Some row => row !! j
  | None => None
  end.

Definition unit_entry (i j : nat) : float :=
  if Nat.eqb i j then 1%float else 0%float.

(** Modelled from the spec: [Matrix.to_4x4] and [Matrix.to_3x3] belong to the
    host's mathutils, which is not under src/.  The spec's AxisTransform is
    "a 4x4 change-of-basis matrix": the resized copy keeps the entries the
    matrix has and takes the identity's elsewhere. *)
Definition resized (n : nat) (m : Matrix) : Matrix :=
  map (fun i => map (fun j => default (unit_entry i j) (entry m i j)) (seq 0 n))
      (seq 0 n).

Definition to_4x4 (m : Matrix) : Matrix := resized 4 m.
Definition to_3x3 (m : Matrix) : Matrix := resized 3 m.

(** [Matrix()]: the 4x4 identity. *)
Definition identity4 : Matrix :=
  [ [1; 0; 0; 0]; [0; 1; 0; 0]; [0; 0; 1; 0]; [0; 0; 0; 1] ]%float.

Definition identity3 : Matrix :=
  [ [1; 0; 0]; [0; 1; 0]; [0; 0; 1] ]%float.

End mathutils.

(** The items of the two orientation properties that the decorator
    [orientation_helper] adds to an operator class. *)
Inductive Axis : Type :=
| AxisX | AxisY | AxisZ | AxisNegX | AxisNegY | AxisNegZ.

Definition axis_identifier (a : Axis) : string :=
  match a with
  | AxisX => "X" | AxisY => "Y" | AxisZ => "Z"
  | AxisNegX => "-X" | AxisNegY => "-Y" | AxisNegZ => "-Z"
  end.

(** The two constant tables of [bpy_extras.io_utils] that [axis_conversion]
    searches: the rotation matrices, and for each of them the set of packed
    (source, target) conventions it serves.  The host owns their contents;
    the add-on is verified for any tables. *)
Class AxisTables : Type := {
  _axis_convert_matrix : list Matrix;
  _axis_convert_lut : list (list Z)
}.

Module io_utils.

Definition _axis_convert_num : gmap string Z :=
  {[ "X" := 0; "Y" := 1; "Z" := 2; "-X" := 3; "-Y" := 4; "-Z" := 5 ]}.

Definition axis_num (a : string) : result Z :=
  match _axis_convert_num !! a with
  | Some n => Ok n
  | None => Raise (KeyError a)
  end.

(** [s[-1]] *)
Fixpoint last_char (s : string) : result ascii :=
  match s with
  | EmptyString => Raise (IndexError "string index out of range")
  | String c EmptyString => Ok c
  | String _ rest => last_char rest
  end.

Definition same_axis (a b : string) : result bool :=
  let? x := last_char a in
  let? y := last_char b in
  Ok (Ascii.eqb x y).

(** [reduce(int.__or__, (_axis_convert_num[a] << (i * 3) for i, a in
    enumerate((from_forward, from_up, to_forward, to_up))))] *)
Definition packed (from_forward from_up to_forward to_up : string) : result Z :=
  let? n0 := axis_num from_forward in
  let? n1 := axis_num from_up in
  let? n2 := axis_num to_forward in
  let? n3 := axis_num to_up in
  Ok (Z.lor (Z.lor (Z.lor (Z.shiftl n0 0) (Z.shiftl n1 3)) (Z.shiftl n2 6))
            (Z.shiftl n3 9)).

Definition Z_in (v : Z) (l : list Z) : bool := existsb (Z.eqb v) l.

(** The first [i] with [value in _axis_convert_lut[i]]. *)
Fixpoint lut_index (v : Z) (lut : list (list Z)) (i : nat) : option nat :=
  match lut with
  | [] => None
  | axis_lut :: rest => if Z_in v axis_lut then Some i else lut_index v rest (S i)
  end.

(** Modelled from the spec: [axis_conversion] is the host helper of
    bpy_extras.io_utils, which is not under src/; the spec calls its result
    the "change-of-basis matrix derived from the configured forward/up axis
    pair".  The helper answers the identity when the source and the target
    convention coincide, refuses a forward and an up direction on one
    coordinate axis, and otherwise searches its tables.  The Python defaults
    of all four parameters are ['Y'], ['Z'], ['Y'], ['Z']; callers here write
    them out. *)
Definition axis_conversion `{AxisTables}
    (from_forward from_up to_forward to_up : string) : result Matrix :=
  if String.eqb from_forward to_forward && String.eqb from_up to_up then
    Ok (mathutils.to_3x3 mathutils.identity4)
  else
    let? clash_from := same_axis from_forward from_up in
    let? clash := (if clash_from : bool then Ok true else same_axis to_forward to_up) in
    if clash : bool then
      Raise (Exception
        "Invalid axis arguments passed, can't use up/forward on the same axis")
    else
      let? v := packed from_forward from_up to_forward to_up in
      match lut_index v _axis_convert_lut 0 with
      | Some i =>
          match _axis_convert_matrix !! i with
          | Some m => Ok m
          | None => Raise (IndexError "tuple index out of range")
          end
      | None => Raise AssertionError
      end.

End io_utils.

(** ** Host: operators as the file browser sees them *)

(** An operator instance read through the host's RNA: its type identifier and
    its properties in declaration order. *)
Module Operator.
Record t : Type := { bl_idname : string; properties : list (string * value) }.
End Operator.

Record SpaceFileBrowser : Type := { active_operator : option Operator.t }.

Record Context : Type := { space_data : SpaceFileBrowser }.

Definition str_in (s : string) (l : list string) : bool := existsb (String.eqb s) l.

(** Modelled from the spec: [Operator.as_keywords] is the host's method
    (bpy.types.Operator), which is not under src/; the spec's "pass-through
    set" is every property of the operator but the ignored ones.  The method
    always ignores the RNA type entry as well. *)
Definition as_keywords (properties : list (string * value)) (ignore : list string)
    : gmap string value :=
  let ignore := (ignore ++ ["rna_type"])%list in
  list_to_map (List.filter (fun kv => negb (str_in (fst kv) ignore)) properties).

Definition ascii_toupper (c : ascii) : ascii :=
  let n := nat_of_ascii c in
  if (Nat.leb 97 n && Nat.leb n 122)%bool then ascii_of_nat (n - 32) else c.

Fixpoint string_toupper (s : string) : string :=
  match s with
  | EmptyString => EmptyString
  | String c rest => String (ascii_toupper c) (string_toupper rest)
  end.

(** [strchr(src, '.')]: the text before and after the first dot. *)
Fixpoint split_dot (s : string) : option (string * string) :=
  match s with
  | EmptyString => None
  | String c rest =>
      if Ascii.eqb c "." then Some (EmptyString, rest)
      else match split_dot rest with
           | Some (pre, post) => Some (String c pre, post)
           | None => None
           end
  end.

(** Modelled from the spec: the "identifier string" under which the host knows
    a registered operator.  The host, whose code is not under src/, derives it
    from the class's [bl_idname]: the part before the dot in upper case, then
    [_OT_], then the rest (names here are far below the host's length cap). *)
Definition WM_operator_bl_idname (src : string) : string :=
  match split_dot src with
  | Some (pre, post) => string_toupper pre ++ "_OT_" ++ post
  | None => src
  end.

(** [operator.bl_idname] where [operator] may be [None]. *)
Definition getattr_bl_idname (operator : option Operator.t) : result string :=
  match operator with
  | Some op => Ok (Operator.bl_idname op)
  | None => Raise (AttributeError "'NoneType' object has no attribute 'bl_idname'")
  end.

(** ** Host: layouts *)

Inductive UIItem : Type :=
| ItemProp (data : Operator.t) (property : string)
| ItemOperator (idname : string) (text : string).

Module UILayout.

Record t : Type := {
  use_property_split : bool;
  use_property_decorate : bool;
  items : list UIItem
}.

Definition set_use_property_split (b : bool) : Run t unit :=
  modify (fun l => {| use_property_split := b;
                      use_property_decorate := use_property_decorate l;
                      items := items l |}).

Definition set_use_property_decorate (b : bool) : Run t unit :=
  modify (fun l => {| use_property_split := use_property_split l;
                      use_property_decorate := b;
                      items := items l |}).

Definition add (i : UIItem) : Run t unit :=
  modify (fun l => {| use_property_split := use_property_split l;
                      use_property_decorate := use_property_decorate l;
                      items := items l ++ [i] |}).

(** Modelled from the spec: [UILayout.prop] and [UILayout.operator] are the
    host's; a layout is the ordered list of the "editable widgets" and menu
    entries placed on it.  [prop] needs an object to read the property from
    and refuses [None]. *)
Definition prop (data : option Operator.t) (property : string) : Run t unit :=
  match data with
  | Some op => add (ItemProp op property)
  | None => run_raise (TypeError "UILayout.prop(): data does not support a 'None' assignment")
  end.

Definition operator (idname : string) (text : string) : Run t unit :=
  add (ItemOperator idname text).

End UILayout.

(** ** The import operator *)

Module Import3DS.

Definition bl_idname : string := "import_scene.max3ds".
Definition bl_label : string := "Import 3DS".
Definition filename_ext : string := ".3ds".

(** The properties of the class.  [filepath] comes from the base class
    [ImportHelper], [axis_forward] and [axis_up] from the decorator
    [orientation_helper]; the others are declared in the class body. *)
Record t : Type := {
  filepath : string;
  filter_glob : string;
  constrain_size : float;
  convert_measure : bool;
  use_image_search : bool;
  use_apply_transform : bool;
  read_keyframe : bool;
  use_world_matrix : bool;
  axis_forward : Axis;
  axis_up : Axis
}.

(** The declared defaults; the orientation is the decorator's
    [axis_forward='Y', axis_up='Z']. *)
Definition defaults : t := {|
  filepath := "";
  filter_glob := "*.3ds";
  constrain_size := 10%float;
  convert_measure := false;
  use_image_search := true;
  use_apply_transform := true;
  read_keyframe := true;
  use_world_matrix := false;
  axis_forward := AxisY;
  axis_up := AxisZ
|}.

(** [self.properties.rna_type.properties]: every property with its value. *)
Definition properties (self : t) : list (string * value) :=
  [ ("rna_type", VStruct (WM_operator_bl_idname bl_idname));
    ("filepath", VStr (filepath self));
    ("filter_glob", VStr (filter_glob self));
    ("constrain_size", VFloat (constrain_size self));
    ("convert_measure", VBool (convert_measure self));
    ("use_image_search", VBool (use_image_search self));
    ("use_apply_transform", VBool (use_apply_transform self));
    ("read_keyframe", VBool (read_keyframe self));
    ("use_world_matrix", VBool (use_world_matrix self));
    ("axis_forward", VStr (axis_identifier (axis_forward self)));
    ("axis_up", VStr (axis_identifier (axis_up self))) ].

(** The instance as the file browser shows it in [active_operator]. *)
Definition as_operator (self : t) : Operator.t :=
  {| Operator.bl_idname := WM_operator_bl_idname bl_idname;
     Operator.properties := properties self |}.

(** The [ignore] tuple of [execute]. *)
Definition ignore : list string := ["axis_forward"; "axis_up"; "filter_glob"].

Section Execute.

Context `{AxisTables} {World Status : Type}.

(** [import_3ds.load], the codec's entry point: it may change the scene, and
    it returns a status or raises. *)
Variable load : t -> Context -> gmap string value -> Run World Status.

Definition execute (self : t) (context : Context) : Run World Status :=
  let keywords := as_keywords (properties self) ignore in
  do global_matrix <-
    run_lift (let? m := io_utils.axis_conversion
                          (axis_identifier (axis_forward self))
                          (axis_identifier (axis_up self)) "Y" "Z" in
              Ok (mathutils.to_4x4 m));
  let keywords := <["global_matrix" := VMatrix global_matrix]> keywords in
  load self context keywords.

End Execute.

(** The operator's own [draw] is [pass]: its options are left to the panels. *)
Definition draw (self : t) (context : Context) : Run UILayout.t unit :=
  run_ret tt.

End Import3DS.

Module MAX3DS_PT_import_include.

Definition bl_space_type : string := "FILE_BROWSER".
Definition bl_region_type : string := "TOOL_PROPS".
Definition bl_label : string := "Include".
Definition bl_parent_id : string := "FILE_PT_operator".

Definition poll (context : Context) : result bool :=
  let sfile := space_data context in
  let operator := active_operator sfile in
  let? idname := getattr_bl_idname operator in
  Ok (String.eqb idname "IMPORT_SCENE_OT_max3ds").

(** [draw] works on [self.layout]. *)
Definition draw (context : Context) : Run UILayout.t unit :=
  UILayout.set_use_property_split true >>
  UILayout.set_use_property_decorate true >>
  let sfile := space_data context in
  let operator := active_operator sfile in
  UILayout.prop operator "use_image_search" >>
  UILayout.prop operator "read_keyframe".

End MAX3DS_PT_import_include.

Module MAX3DS_PT_import_transform.

Definition bl_space_type : string := "FILE_BROWSER".
Definition bl_region_type : string := "TOOL_PROPS".
Definition bl_label : string := "Transform".
Definition bl_parent_id : string := "FILE_PT_operator".

Definition poll (context : Context) : result bool :=
  let sfile := space_data context in
  let operator := active_operator sfile in
  let? idname := getattr_bl_idname operator in
  Ok (String.eqb idname "IMPORT_SCENE_OT_max3ds").

Definition draw (context : Context) : Run UILayout.t unit :=
  UILayout.set_use_property_split true >>
  UILayout.set_use_property_decorate false >>
  let sfile := space_data context in
  let operator := active_operator sfile in
  UILayout.prop operator "constrain_size" >>
  UILayout.prop operator "convert_measure" >>
  UILayout.prop operator "use_apply_transform" >>
  UILayout.prop operator "use_world_matrix" >>
  UILayout.prop operator "axis_forward" >>
  UILayout.prop operator "axis_up".

End MAX3DS_PT_import_transform.

(** ** The export operator *)

Module Export3DS.

Definition bl_idname : string := "export_scene.max3ds".
Definition bl_label : string := "Export 3DS".
Definition filename_ext : string := ".3ds".

(** [filepath] and [check_existing] come from the base class [ExportHelper],
    [axis_forward] and [axis_up] from [orientation_helper]. *)
Record t : Type := {
  filepath : string;
  check_existing : bool;
  filter_glob : string;
  scale_factor : float;
  use_selection : bool;
  use_hierarchy : bool;
  write_keyframe : bool;
  axis_forward : Axis;
  axis_up : Axis
}.

Definition defaults : t := {|
  filepath := "";
  check_existing := true;
  filter_glob := "*.3ds";
  scale_factor := 1%float;
  use_selection := false;
  use_hierarchy := false;
  write_keyframe := false;
  axis_forward := AxisY;
  axis_up := AxisZ
|}.

Definition properties (self : t) : list (string * value) :=
  [ ("rna_type", VStruct (WM_operator_bl_idname bl_idname));
    ("filepath", VStr (filepath self));
    ("check_existing", VBool (check_existing self));
    ("filter_glob", VStr (filter_glob self));
    ("scale_factor", VFloat (scale_factor self));
    ("use_selection", VBool (use_selection self));
    ("use_hierarchy", VBool (use_hierarchy self));
    ("write_keyframe", VBool (write_keyframe self));
    ("axis_forward", VStr (axis_identifier (axis_forward self)));
    ("axis_up", VStr (axis_identifier (axis_up self))) ].

Definition as_operator (self : t) : Operator.t :=
  {| Operator.bl_idname := WM_operator_bl_idname bl_idname;
     Operator.properties := properties self |}.

Definition ignore : list string :=
  ["axis_forward"; "axis_up"; "filter_glob"; "check_existing"].

Section Execute.

Context `{AxisTables} {World Status : Type}.

(** [export_3ds.save], the codec's entry point for writing. *)
Variable save : t -> Context -> gmap string value -> Run World Status.

Definition execute (self : t) (context : Context) : Run World Status :=
  let keywords := as_keywords (properties self) ignore in
  do global_matrix <-
    run_lift (let? m := io_utils.axis_conversion "Y" "Z"
                          (axis_identifier (axis_forward self))
                          (axis_identifier (axis_up self)) in
              Ok (mathutils.to_4x4 m));
  let keywords := <["global_matrix" := VMatrix global_matrix]> keywords in
  save self context keywords.

End Execute.

Definition draw (self : t) (context : Context) : Run UILayout.t unit :=
  run_ret tt.

End Export3DS.

Module MAX3DS_PT_export_include.

Definition bl_space_type : string := "FILE_BROWSER".
Definition bl_region_type : string := "TOOL_PROPS".
Definition bl_label : string := "Include".
Definition bl_parent_id : string := "FILE_PT_operator".

Definition poll (context : Context) : result bool :=
  let sfile := space_data context in
  let operator := active_operator sfile in
  let? idname := getattr_bl_idname operator in
  Ok (String.eqb idname "EXPORT_SCENE_OT_max3ds").

Definition draw (context : Context) : Run UILayout.t unit :=
  UILayout.set_use_property_split true >>
  UILayout.set_use_property_decorate true >>
  let sfile := space_data context in
  let operator := active_operator sfile in
  UILayout.prop operator "use_selection" >>
  UILayout.prop operator "use_hierarchy" >>
  UILayout.prop operator "write_keyframe".

End MAX3DS_PT_export_include.

Module MAX3DS_PT_export_transform.

Definition bl_space_type : string := "FILE_BROWSER".
Definition bl_region_type : string := "TOOL_PROPS".
Definition bl_label : string := "Transform".
Definition bl_parent_id : string := "FILE_PT_operator".

Definition poll (context : Context) : result bool :=
  let sfile := space_data context in
  let operator := active_operator sfile in
  let? idname := getattr_bl_idname operator in
  Ok (String.eqb idname "EXPORT_SCENE_OT_max3ds").

Definition draw (context : Context) : Run UILayout.t unit :=
  UILayout.set_use_property_split true >>
  UILayout.set_use_property_decorate false >>
  let sfile := space_data context in
  let operator := active_operator sfile in
  UILayout.prop operator "scale_factor" >>
  UILayout.prop operator "axis_forward" >>
  UILayout.prop operator "axis_up".

End MAX3DS_PT_export_transform.

(** ** Menu entries *)

(** Both callbacks work on [self.layout] and ignore the context. *)
Definition menu_func_export (context : Context) : Run UILayout.t unit :=
  UILayout.operator Export3DS.bl_idname "3D Studio (.3ds)".

Definition menu_func_import (context : Context) : Run UILayout.t unit :=
  UILayout.operator Import3DS.bl_idname "3D Studio (.3ds)".

(** ** Host: the class table and the two file menus *)

Module bpy.

Inductive MenuType : Type := TOPBAR_MT_file_import | TOPBAR_MT_file_export.

(** The registration state of the host: the names of the registered classes
    and, for each file menu, the draw functions appended to it, by name and in
    the order the menu calls them. *)
Record Host : Type := {
  classes : gset string;
  file_import_draw_funcs : list string;
  file_export_draw_funcs : list string
}.

Definition draw_funcs (menu : MenuType) (h : Host) : list string :=
  match menu with
  | TOPBAR_MT_file_import => file_import_draw_funcs h
  | TOPBAR_MT_file_export => file_export_draw_funcs h
  end.

Definition set_classes (cs : gset string) (h : Host) : Host :=
  {| classes := cs;
     file_import_draw_funcs := file_import_draw_funcs h;
     file_export_draw_funcs := file_export_draw_funcs h |}.

Definition set_draw_funcs (menu : MenuType) (fs : list string) (h : Host) : Host :=
  match menu with
  | TOPBAR_MT_file_import =>
      {| classes := classes h;
         file_import_draw_funcs := fs;
         file_export_draw_funcs := file_export_draw_funcs h |}
  | TOPBAR_MT_file_export =>
      {| classes := classes h;
         file_import_draw_funcs := file_import_draw_funcs h;
         file_export_draw_funcs := fs |}
  end.

(** Modelled from the spec: [bpy.utils.register_class] and
    [bpy.utils.unregister_class] are the host's, not under src/; they "add" and
    "remove" a class of the "host-global registration tables".  The host
    refuses to register a class twice and to unregister one it does not
    hold. *)
Definition register_class (cls : string) : Run Host unit :=
  fun h =>
    if decide (cls ∈ classes h) then
      (Raise (ValueError "register_class(...): already registered as a subclass"), h)
    else (Ok tt, set_classes ({[cls]} ∪ classes h) h).

Definition unregister_class (cls : string) : Run Host unit :=
  fun h =>
    if decide (cls ∈ classes h) then (Ok tt, set_classes (classes h ∖ {[cls]}) h)
    else (Raise (RuntimeError "unregister_class(...): not a registered as a subclass"), h).

(** Python's [list.remove]: drops the first occurrence, [None] for the
    [ValueError] raised when there is none. *)
Fixpoint list_remove (f : string) (l : list string) : option (list string) :=
  match l with
  | [] => None
  | g :: rest =>
      if String.eqb g f then Some rest
      else match list_remove f rest with
           | Some rest' => Some (g :: rest')
           | None => None
           end
  end.

(** Modelled from the spec: the "global menu-append/remove hooks" of the host's
    menu classes, not under src/.  [append] puts the draw function last;
    [remove] drops its first occurrence and passes over a function that is not
    there. *)
Definition append (menu : MenuType) (draw_func : string) : Run Host unit :=
  modify (fun h => set_draw_funcs menu (draw_funcs menu h ++ [draw_func]) h).

Definition remove (menu : MenuType) (draw_func : string) : Run Host unit :=
  modify (fun h =>
    match list_remove draw_func (draw_funcs menu h) with
    | Some fs => set_draw_funcs menu fs h
    | None => h
    end).

End bpy.

(** ** Registration *)

(** Classes and functions are entered in the host's tables under their
    names. *)
Definition register : Run bpy.Host unit :=
  bpy.register_class "Import3DS" >>
  bpy.register_class "MAX3DS_PT_import_include" >>
  bpy.register_class "MAX3DS_PT_import_transform" >>
  bpy.register_class "Export3DS" >>
  bpy.register_class "MAX3DS_PT_export_include" >>
  bpy.register_class "MAX3DS_PT_export_transform" >>
  bpy.append bpy.TOPBAR_MT_file_import "menu_func_import" >>
  bpy.append bpy.TOPBAR_MT_file_export "menu_func_export".

Definition unregister : Run bpy.Host unit :=
  bpy.unregister_class "Import3DS" >>
  bpy.unregister_class "MAX3DS_PT_import_include" >>
  bpy.unregister_class "MAX3DS_PT_import_transform" >>
  bpy.unregister_class "Export3DS" >>
  bpy.unregister_class "MAX3DS_PT_export_include" >>
  bpy.unregister_class "MAX3DS_PT_export_transform" >>
  bpy.remove bpy.TOPBAR_MT_file_import "menu_func_import" >>
  bpy.remove bpy.TOPBAR_MT_file_export "menu_func_export".

(** ** What the specification declares *)

Module Spec.

(** The fields of the specification's ImportConfiguration (scale-constraint
    threshold, unit-conversion flag, image-search flag, transform-apply flag,
    keyframe-read flag, world-space flag, forward/up axis selection, target
    file path), by the names the operator gives them. *)
Definition ImportConfiguration : list string :=
  ["constrain_size"; "convert_measure"; "use_image_search"; "use_apply_transform";
   "read_keyframe"; "use_world_matrix"; "axis_forward"; "axis_up"; "filepath"].

(** The fields of the specification's ExportConfiguration (scale factor,
    selection-only flag, hierarchy-export flag, keyframe-write flag, forward/up
    axis selection, target file path). *)
Definition ExportConfiguration : list string :=
  ["scale_factor"; "use_selection"; "use_hierarchy"; "write_keyframe";
   "axis_forward"; "axis_up"; "filepath"].

(** The keys the specification excludes from the pass-through set. *)
Definition excluded : list string := ["axis_forward"; "axis_up"; "filter_glob"].

(** The keys of the record the delegate is to receive: the declared fields
    without the excluded keys, and the axis transform. *)
Definition delegate_keys (configuration : list string) : gset string :=
  (list_to_set configuration ∖ list_to_set excluded) ∪ {["global_matrix"]}.

End Spec.

(** The keyword record [Import3DS.execute] hands to [load], written out. *)
Definition import_keywords (self : Import3DS.t) (global_matrix : Matrix)
    : gmap string value :=
  <["global_matrix" := VMatrix global_matrix]>
  (<["filepath" := VStr (Import3DS.filepath self)]>
  (<["constrain_size" := VFloat (Import3DS.constrain_size self)]>
  (<["convert_measure" := VBool (Import3DS.convert_measure self)]>
  (<["use_image_search" := VBool (Import3DS.use_image_search self)]>
  (<["use_apply_transform" := VBool (Import3DS.use_apply_transform self)]>
  (<["read_keyframe" := VBool (Import3DS.read_keyframe self)]>
  (<["use_world_matrix" := VBool (Import3DS.use_world_matrix self)]> ∅))))))).

(** The keyword record [Export3DS.execute] hands to [save], written out. *)
Definition export_keywords (self : Export3DS.t) (global_matrix : Matrix)
    : gmap string value :=
  <["global_matrix" := VMatrix global_matrix]>
  (<["filepath" := VStr (Export3DS.filepath self)]>
  (<["scale_factor" := VFloat (Export3DS.scale_factor self)]>
  (<["use_selection" := VBool (Export3DS.use_selection self)]>
  (<["use_hierarchy" := VBool (Export3DS.use_hierarchy self)]>
  (<["write_keyframe" := VBool (Export3DS.write_keyframe self)]> ∅))))).

(** The axis matrix each operator asks the host for. *)
Definition import_axis_matrix `{AxisTables} (self : Import3DS.t) : result Matrix :=
  io_utils.axis_conversion (axis_identifier (Import3DS.axis_forward self))
                           (axis_identifier (Import3DS.axis_up self)) "Y" "Z".

Definition export_axis_matrix `{AxisTables} (self : Export3DS.t) : result Matrix :=
  io_utils.axis_conversion "Y" "Z" (axis_identifier (Export3DS.axis_forward self))
                           (axis_identifier (Export3DS.axis_up self)).

(** An operator instance is owned by the class whose identifier the host
    turned into the instance's. *)
Definition owned_by (class_idname : string) (op : Operator.t) : Prop :=
  Operator.bl_idname op = WM_operator_bl_idname class_idname.

(** Each panel's [poll] with the identifier of the operator class it serves. *)
Definition panel_polls : list ((Context -> result bool) * string) :=
  [ (MAX3DS_PT_import_include.poll, Import3DS.bl_idname);
    (MAX3DS_PT_import_transform.poll, Import3DS.bl_idname);
    (MAX3DS_PT_export_include.poll, Export3DS.bl_idname);
    (MAX3DS_PT_export_transform.poll, Export3DS.bl_idname) ].

(** The layout after a panel has set its two flags and placed one property
    widget per name, in order, for operator [op]. *)
Definition drawn (split decorate : bool) (op : Operator.t) (names : list string)
    (layout : UILayout.t) : UILayout.t :=
  {| UILayout.use_property_split := split;
     UILayout.use_property_decorate := decorate;
     UILayout.items := UILayout.items layout ++ map (ItemProp op) names |}.

Definition property_names (properties : list (string * value)) : list string :=
  map fst properties.

(** The property names each panel is to show, in order. *)
Definition import_include_widgets : list string :=
  ["use_image_search"; "read_keyframe"].

Definition import_transform_widgets : list string :=
  ["constrain_size"; "convert_measure"; "use_apply_transform"; "use_world_matrix";
   "axis_forward"; "axis_up"].

Definition export_include_widgets : list string :=
  ["use_selection"; "use_hierarchy"; "write_keyframe"].

Definition export_transform_widgets : list string :=
  ["scale_factor"; "axis_forward"; "axis_up"].

(** The classes and the menu functions of the add-on, and a host that holds
    none of them yet. *)
Definition addon_classes : gset string :=
  {[ "Import3DS"; "MAX3DS_PT_import_include"; "MAX3DS_PT_import_transform";
     "Export3DS"; "MAX3DS_PT_export_include"; "MAX3DS_PT_export_transform" ]}.

Definition addon_absent (h : bpy.Host) : Prop :=
  (bpy.classes h ## addon_classes)
  /\ ("menu_func_import" ∉ bpy.draw_funcs bpy.TOPBAR_MT_file_import h)
  /\ ("menu_func_export" ∉ bpy.draw_funcs bpy.TOPBAR_MT_file_export h).

(** The host once the add-on is installed on top of what [h] holds. *)
Definition registered (h : bpy.Host) : bpy.Host :=
  {| bpy.classes := addon_classes ∪ bpy.classes h;
     bpy.file_import_draw_funcs := bpy.file_import_draw_funcs h ++ ["menu_func_import"];
     bpy.file_export_draw_funcs := bpy.file_export_draw_funcs h ++ ["menu_func_export"] |}.

(** Instances for the examples: a host with empty axis tables, a codec that
    hands back the keywords it was given, and a host with nothing registered. *)
Definition no_tables : AxisTables :=
  {| _axis_convert_matrix := []; _axis_convert_lut := [] |}.

(** Tables with a single rotation, which takes forward ['-Z'], up ['Y'] to the
    host's forward ['Y'], up ['Z']. *)
Definition one_rotation : AxisTables :=
  {| _axis_convert_matrix := [ [ [1; 0; 0]; [0; 0; -1]; [0; 1; 0] ]%float ];
     _axis_convert_lut := [ [1101] ] |}.

Definition y_up_import : Import3DS.t :=
  {| Import3DS.filepath := "model.3ds";
     Import3DS.filter_glob := "*.3ds";
     Import3DS.constrain_size := 0%float;
     Import3DS.convert_measure := true;
     Import3DS.use_image_search := false;
     Import3DS.use_apply_transform := true;
     Import3DS.read_keyframe := false;
     Import3DS.use_world_matrix := true;
     Import3DS.axis_forward := AxisNegZ;
     Import3DS.axis_up := AxisY |}.

Definition echo {T : Type} (self : T) (context : Context) (keywords : gmap string value)
    : Run unit (gmap string value) :=
  run_ret keywords.

Definition empty_context : Context := {| space_data := {| active_operator := None |} |}.

Definition browsing (op : Operator.t) : Context :=
  {| space_data := {| active_operator := Some op |} |}.

Definition empty_layout : UILayout.t :=
  {| UILayout.use_property_split := false;
     UILayout.use_property_decorate := false;
     UILayout.items := [] |}.

Definition fresh_host : bpy.Host :=
  {| bpy.classes := ∅;
     bpy.file_import_draw_funcs := [];
     bpy.file_export_draw_funcs := [] |}.

(** ** Loading the module *)

Module Package.

(** What running the module's top level works on: the names bound in the
    module's namespace (at module level [locals()] is that namespace, and it
    survives a reload of the module), the calls of [importlib.reload] made so
    far, and the host's registration state. *)
Record State : Type := {
  globals : gset string;
  reload_calls : list string;
  host : bpy.Host
}.

Definition bind_names (names : list string) : Run State unit :=
  modify (fun s => {| globals := list_to_set names ∪ globals s;
                      reload_calls := reload_calls s;
                      host := host s |}).

Definition if_bound (name : string) (c : Run State unit) : Run State unit :=
  fun s => if decide (name ∈ globals s) then c s else (Ok tt, s).

Definition on_host (c : Run bpy.Host unit) : Run State unit :=
  fun s =>
    let '(r, h) := c (host s) in
    (r, {| globals := globals s; reload_calls := reload_calls s; host := h |}).

Section Body.

(** What running a codec module's code again gives: the two codec modules are
    not part of this file. *)
Variable reload_outcome : string -> result unit.

Definition reload (module : string) : Run State unit :=
  fun s =>
    (reload_outcome module,
     {| globals := globals s;
        reload_calls := reload_calls s ++ [module];
        host := host s |}).

(** The top level of the file, in order: the imports, [bl_info], the reload
    block, the classes and functions, and the script entry point. *)
Definition body (__name__ : string) : Run State unit :=
  bind_names ["ImportHelper"; "ExportHelper"; "orientation_helper"; "axis_conversion"] >>
  bind_names ["BoolProperty"; "EnumProperty"; "FloatProperty"; "StringProperty"] >>
  bind_names ["bpy"] >>
  bind_names ["bl_info"] >>
  if_bound "bpy"
    (bind_names ["importlib"] >>
     if_bound "import_3ds" (reload "import_3ds") >>
     if_bound "export_3ds" (reload "export_3ds")) >>
  bind_names ["Import3DS"] >>
  bind_names ["MAX3DS_PT_import_include"] >>
  bind_names ["MAX3DS_PT_import_transform"] >>
  bind_names ["Export3DS"] >>
  bind_names ["MAX3DS_PT_export_include"] >>
  bind_names ["MAX3DS_PT_export_transform"] >>
  bind_names ["menu_func_export"] >>
  bind_names ["menu_func_import"] >>
  bind_names ["register"] >>
  bind_names ["unregister"] >>
  if String.eqb __name__ "__main__" then on_host register else run_ret tt.

End Body.

(** The names the module binds when it runs through. *)
Definition bound_names : gset string :=
  list_to_set
    ["ImportHelper"; "ExportHelper"; "orientation_helper"; "axis_conversion";
     "BoolProperty"; "EnumProperty"; "FloatProperty"; "StringProperty";
     "bpy"; "bl_info"; "importlib";
     "Import3DS"; "MAX3DS_PT_import_include"; "MAX3DS_PT_import_transform";
     "Export3DS"; "MAX3DS_PT_export_include"; "MAX3DS_PT_export_transform";
     "menu_func_export"; "menu_func_import"; "register"; "unregister"].

(** The codec modules a namespace already binds, in the order the module
    looks for them. *)
Definition bound_codecs (names : gset string) : list string :=
  List.filter (fun m => bool_decide (m ∈ names)) ["import_3ds"; "export_3ds"].

Definition first_load : State :=
  {| globals := list_to_set ["__name__"; "__file__"; "__package__"];
     reload_calls := [];
     host := fresh_host |}.

End Package.

(** ** More vocabulary for the properties *)

(** The order in which [register] and [unregister] go through the classes. *)
Definition addon_class_order : list string :=
  ["Import3DS"; "MAX3DS_PT_import_include"; "MAX3DS_PT_import_transform";
   "Export3DS"; "MAX3DS_PT_export_include"; "MAX3DS_PT_export_transform"].

(** The property names of the property widgets on a layout, in order. *)
Fixpoint placed_properties (its : list UIItem) : list string :=
  match its with
  | [] => []
  | ItemProp _ property :: rest => property :: placed_properties rest
  | ItemOperator _ _ :: rest => placed_properties rest
  end.

(** What the given panels show for operator [op], each drawn on a layout of
    its own. *)
Definition panel_properties (draws : list (Context -> Run UILayout.t unit))
    (op : Operator.t) : list string :=
  flat_map (fun draw =>
              placed_properties (UILayout.items (snd (draw (browsing op) empty_layout))))
           draws.

(** The properties of an operator without the ones named in [hidden]. *)
Definition visible_properties (properties : list (string * value)) (hidden : list string)
    : list string :=
  List.filter (fun n => negb (str_in n hidden)) (property_names properties).

(** Other functions than [f], in the order the menu holds them. *)
Definition others (f : string) (draw_funcs : list string) : list string :=
  List.filter (fun g => negb (String.eqb g f)) draw_funcs.

(** A world that counts the calls of the codec, and a codec that does nothing
    else. *)
Definition counting {T : Type} (self : T) (context : Context)
    (keywords : gmap string value) : Run nat unit :=
  modify S.

Definition z_forward_z_up : Import3DS.t :=
  {| Import3DS.filepath := "model.3ds";
     Import3DS.filter_glob := "*.3ds";
     Import3DS.constrain_size := 10%float;
     Import3DS.convert_measure := false;
     Import3DS.use_image_search := true;
     Import3DS.use_apply_transform := true;
     Import3DS.read_keyframe := true;
     Import3DS.use_world_matrix := false;
     Import3DS.axis_forward := AxisNegZ;
     Import3DS.axis_up := AxisZ |}.

Definition export_held : bpy.Host :=
  {| bpy.classes := {["Export3DS"]};
     bpy.file_import_draw_funcs := [];
     bpy.file_export_draw_funcs := [] |}.

Definition menu_held : bpy.Host :=
  {| bpy.classes := ∅;
     bpy.file_import_draw_funcs := ["menu_func_import"; "other"];
     bpy.file_export_draw_funcs := [] |}.

(** The classes of a list registered, or unregistered, one after the other. *)
Definition register_classes (l : list string) : Run bpy.Host unit :=
  foldr (fun cls k => bpy.register_class cls >> k) (run_ret tt) l.

Definition unregister_classes (l : list string) : Run bpy.Host unit :=
  foldr (fun cls k => bpy.unregister_class cls >> k) (run_ret tt) l.

(** The add-on enabled and disabled again, [n] times over. *)
Fixpoint enable_disable (n : nat) : Run bpy.Host unit :=
  match n with
  | O => run_ret tt
  | S n' => register >> unregister >> enable_disable n'
  end.

(** ** Proof steps used more than once *)

(** Equality of two explicit sets of names, by membership. *)
Ltac name_sets :=
  apply set_eq; intros ?k; set_unfold; split;
  [ intros ?Hk; destruct_or!; subst;
    (now right) || (left; split; [tauto | intros ?Hx; destruct_or!; discriminate])
  | intros [[?Hin ?Hout] | ->]; [destruct_or!; subst; tauto | tauto] ].

(** An explicit list of names has no name twice. *)
Ltac distinct_names :=
  repeat (apply NoDup_cons; split;
          [set_unfold; intros ?Hin; destruct_or!; discriminate |]);
  apply NoDup_nil_2.

(** One [register_class] or [unregister_class] of the add-on, its side
    condition settled from the set of classes at hand. *)
Ltac class_step lem :=
  rewrite lem; [| simpl; unfold addon_classes in *; set_solver].

(** * Properties *)

(** ** The state-and-exception plumbing *)

Lemma run_bind_lift_ok {S A B : Type} (r : result A) (a : A) (k : A -> Run S B) :
  r = Ok a -> run_bind (run_lift r) k = k a.
Proof. intros ->. reflexivity. Qed.

Lemma run_bind_lift_raise {S A B : Type} (r : result A) (e : exn) (k : A -> Run S B) s :
  r = Raise e -> run_bind (run_lift r) k s = (Raise e, s).
Proof. intros ->. reflexivity. Qed.

Lemma bind_ok {A B : Type} (r : result A) (a : A) (k : A -> result B) :
  r = Ok a -> bind r k = k a.
Proof. intros ->. reflexivity. Qed.

Lemma bind_raise {A B : Type} (r : result A) (e : exn) (k : A -> result B) :
  r = Raise e -> bind r k = Raise e.
Proof. intros ->. reflexivity. Qed.

(** ** The matrices *)

Lemma to_3x3_identity4 : mathutils.to_3x3 mathutils.identity4 = mathutils.identity3.
Proof. reflexivity. Qed.

Lemma to_4x4_identity3 : mathutils.to_4x4 mathutils.identity3 = mathutils.identity4.
Proof. reflexivity. Qed.

(** When the source and the target convention coincide the helper answers the
    3x3 identity, whatever its tables hold. *)
Lemma axis_conversion_same `{AxisTables} (forward up : string) :
  io_utils.axis_conversion forward up forward up = Ok mathutils.identity3.
Proof.
  unfold io_utils.axis_conversion.
  rewrite !String.eqb_refl. simpl. now rewrite to_3x3_identity4.
Qed.

(** A forward and an up direction on one coordinate axis are refused before
    the tables are looked at. *)
Lemma axis_conversion_clash `{AxisTables} (a b : Axis) :
  io_utils.same_axis (axis_identifier a) (axis_identifier b) = Ok true ->
  exists msg,
    (io_utils.axis_conversion (axis_identifier a) (axis_identifier b) "Y" "Z"
      = Raise (Exception msg))
    /\ (io_utils.axis_conversion "Y" "Z" (axis_identifier a) (axis_identifier b)
      = Raise (Exception msg)).
Proof.
  intros Hclash. eexists. unfold io_utils.axis_conversion.
  destruct a, b; try discriminate Hclash; split; reflexivity.
Qed.

(** ** The keyword records *)

Lemma import_as_keywords (self : Import3DS.t) (gm : Matrix) :
  <["global_matrix" := VMatrix gm]>
    (as_keywords (Import3DS.properties self) Import3DS.ignore)
  = import_keywords self gm.
Proof. reflexivity. Qed.

Lemma export_as_keywords (self : Export3DS.t) (gm : Matrix) :
  <["global_matrix" := VMatrix gm]>
    (as_keywords (Export3DS.properties self) Export3DS.ignore)
  = export_keywords self gm.
Proof. reflexivity. Qed.

Lemma import_keywords_dom (self : Import3DS.t) (gm : Matrix) :
  dom (import_keywords self gm) = Spec.delegate_keys Spec.ImportConfiguration.
Proof.
  unfold import_keywords, Spec.delegate_keys, Spec.ImportConfiguration, Spec.excluded.
  rewrite !dom_insert_L, dom_empty_L. simpl. name_sets.
Qed.

Lemma export_keywords_dom (self : Export3DS.t) (gm : Matrix) :
  dom (export_keywords self gm) = Spec.delegate_keys Spec.ExportConfiguration.
Proof.
  unfold export_keywords, Spec.delegate_keys, Spec.ExportConfiguration, Spec.excluded.
  rewrite !dom_insert_L, dom_empty_L. simpl. name_sets.
Qed.

(** A key outside the record's key set is not passed. *)
Lemma not_passed (keywords : gmap string value) (keys : gset string) (k : string) :
  dom keywords = keys -> k ∉ keys -> keywords !! k = None.
Proof. intros <- Hk. now apply not_elem_of_dom. Qed.

Lemma import_keywords_ignored (self : Import3DS.t) (gm : Matrix) (k : string) :
  k ∈ Import3DS.ignore -> import_keywords self gm !! k = None.
Proof.
  intros Hk. apply (not_passed _ _ _ (import_keywords_dom self gm)).
  unfold Import3DS.ignore in Hk. unfold Spec.delegate_keys, Spec.ImportConfiguration, Spec.excluded.
  set_unfold. destruct_or!; subst; intros [[_ Hout] | Heq]; try discriminate; tauto.
Qed.

Lemma export_keywords_ignored (self : Export3DS.t) (gm : Matrix) (k : string) :
  k ∈ Export3DS.ignore -> export_keywords self gm !! k = None.
Proof.
  intros Hk. apply (not_passed _ _ _ (export_keywords_dom self gm)).
  unfold Export3DS.ignore in Hk. unfold Spec.delegate_keys, Spec.ExportConfiguration, Spec.excluded.
  set_unfold.
  destruct_or!; subst; intros [[Hin Hout] | Heq]; try discriminate; try tauto;
    destruct_or!; discriminate.
Qed.

(** ** The two [execute] methods *)

Section Operators.

Context `{AxisTables} {World Status : Type}.
Variable load : Import3DS.t -> Context -> gmap string value -> Run World Status.
Variable save : Export3DS.t -> Context -> gmap string value -> Run World Status.

Lemma import_execute_ok (self : Import3DS.t) (context : Context) (m : Matrix) :
  import_axis_matrix self = Ok m ->
  Import3DS.execute load self context
  = load self context (import_keywords self (mathutils.to_4x4 m)).
Proof.
  unfold import_axis_matrix. intros Hm. unfold Import3DS.execute. cbv zeta.
  rewrite (run_bind_lift_ok _ (mathutils.to_4x4 m)) by now rewrite (bind_ok _ m).
  now rewrite import_as_keywords.
Qed.

Lemma import_execute_raise (self : Import3DS.t) (context : Context) (e : exn) (w : World) :
  import_axis_matrix self = Raise e ->
  Import3DS.execute load self context w = (Raise e, w).
Proof.
  unfold import_axis_matrix. intros Hm. unfold Import3DS.execute. cbv zeta.
  apply run_bind_lift_raise. now apply bind_raise.
Qed.

Lemma export_execute_ok (self : Export3DS.t) (context : Context) (m : Matrix) :
  export_axis_matrix self = Ok m ->
  Export3DS.execute save self context
  = save self context (export_keywords self (mathutils.to_4x4 m)).
Proof.
  unfold export_axis_matrix. intros Hm. unfold Export3DS.execute. cbv zeta.
  rewrite (run_bind_lift_ok _ (mathutils.to_4x4 m)) by now rewrite (bind_ok _ m).
  now rewrite export_as_keywords.
Qed.

Lemma export_execute_raise (self : Export3DS.t) (context : Context) (e : exn) (w : World) :
  export_axis_matrix self = Raise e ->
  Export3DS.execute save self context w = (Raise e, w).
Proof.
  unfold export_axis_matrix. intros Hm. unfold Export3DS.execute. cbv zeta.
  apply run_bind_lift_raise. now apply bind_raise.
Qed.

End Operators.

(** A configuration off the defaults, served from the helper's tables. *)
Example y_up_import_call :
  @Import3DS.execute one_rotation unit _ echo y_up_import empty_context tt
  = (Ok (import_keywords y_up_import
           [ [1; 0; 0; 0]; [0; 0; -1; 0]; [0; 1; 0; 0]; [0; 0; 0; 1] ]%float), tt).
Proof.
  rewrite (import_execute_ok (H := one_rotation) echo y_up_import empty_context
             [ [1; 0; 0]; [0; 0; -1]; [0; 1; 0] ]%float); reflexivity.
Qed.



(** C2.  For every configured pair, the [global_matrix] that
    [Import3DS.execute] passes on is the 4x4 form of what [axis_conversion]
    answers with the pair as the source convention ([from_forward],
    [from_up]), and the one [Export3DS.execute] passes on is the 4x4 form of
    what [axis_conversion] answers with the pair as the target convention
    ([to_forward], [to_up]); where the helper raises instead, so does
    [execute], with the same exception. *)
Theorem global_matrix_is_axis_conversion `{AxisTables} {World Status : Type} :
  (forall (load : Import3DS.t -> Context -> gmap string value -> Run World Status)
          (self : Import3DS.t) (context : Context),
      match io_utils.axis_conversion (axis_identifier (Import3DS.axis_forward self))
                                     (axis_identifier (Import3DS.axis_up self)) "Y" "Z" with
      | Ok m => exists keywords,
          Import3DS.execute load self context = load self context keywords
          /\ keywords !! "global_matrix" = Some (VMatrix (mathutils.to_4x4 m))
      | Raise e => forall w, Import3DS.execute load self context w = (Raise e, w)
      end)
  /\
  (forall (save : Export3DS.t -> Context -> gmap string value -> Run World Status)
          (self : Export3DS.t) (context : Context),
      match io_utils.axis_conversion "Y" "Z"
                                     (axis_identifier (Export3DS.axis_forward self))
                                     (axis_identifier (Export3DS.axis_up self)) with
      | Ok m => exists keywords,
          Export3DS.execute save self context = save self context keywords
          /\ keywords !! "global_matrix" = Some (VMatrix (mathutils.to_4x4 m))
      | Raise e => forall w, Export3DS.execute save self context w = (Raise e, w)
      end).
Proof.
  split.
  - intros load self context.
    destruct (io_utils.axis_conversion _ _ "Y" "Z") as [m|e] eqn:Hm.
    + exists (import_keywords self (mathutils.to_4x4 m)). split.
      * now apply import_execute_ok.
      * unfold import_keywords. apply lookup_insert_eq.
    + intros w. now apply import_execute_raise.
  - intros save self context.
    destruct (io_utils.axis_conversion "Y" "Z" _ _) as [m|e] eqn:Hm.
    + exists (export_keywords self (mathutils.to_4x4 m)). split.
      * now apply export_execute_ok.
      * unfold export_keywords. apply lookup_insert_eq.
    + intros w. now apply export_execute_raise.
Qed.



(** The export operator does have a [check_existing] property, and only the
    [ignore] tuple keeps it from the codec: under the import's tuple it would
    be passed. *)
Lemma check_existing_is_a_property (self : Export3DS.t) :
  "check_existing" ∈ property_names (Export3DS.properties self)
  /\ as_keywords (Export3DS.properties self) Import3DS.ignore !! "check_existing"
     = Some (VBool (Export3DS.check_existing self)).
Proof.
  split.
  - unfold property_names, Export3DS.properties. simpl. set_solver.
  - reflexivity.
Qed.

(** C8.  [Export3DS.execute] keeps [check_existing] from the record it passes
    to [save], besides [axis_forward], [axis_up] and [filter_glob];
    [Import3DS.execute] keeps only these three from [load].  The export's
    exclusions strictly contain the import's. *)
Theorem export_ignores_check_existing `{AxisTables} {World Status : Type} :
  Import3DS.ignore = ["axis_forward"; "axis_up"; "filter_glob"]
  /\ Export3DS.ignore = (Import3DS.ignore ++ ["check_existing"])%list
  /\ Import3DS.ignore ⊆ Export3DS.ignore
  /\ ~ Export3DS.ignore ⊆ Import3DS.ignore
  /\ (forall (save : Export3DS.t -> Context -> gmap string value -> Run World Status)
             (self : Export3DS.t) (context : Context) (m : Matrix),
        export_axis_matrix self = Ok m ->
        exists keywords,
          Export3DS.execute save self context = save self context keywords
          /\ "check_existing" ∈ property_names (Export3DS.properties self)
          /\ forall k, k ∈ Export3DS.ignore -> keywords !! k = None)
  /\ (forall (load : Import3DS.t -> Context -> gmap string value -> Run World Status)
             (self : Import3DS.t) (context : Context) (m : Matrix),
        import_axis_matrix self = Ok m ->
        exists keywords,
          Import3DS.execute load self context = load self context keywords
          /\ (forall k, k ∈ Import3DS.ignore -> keywords !! k = None)
          /\ forall k, k ∈ property_names (Import3DS.properties self) ->
                       k ∉ Import3DS.ignore -> k <> "rna_type" ->
                       is_Some (keywords !! k)).
Proof.
  split; [reflexivity | split; [reflexivity | split; [| split; [| split]]]].
  - intros k Hk. unfold Import3DS.ignore, Export3DS.ignore in *.
    set_unfold. tauto.
  - intros Hsub. specialize (Hsub "check_existing").
    unfold Import3DS.ignore, Export3DS.ignore in Hsub. set_unfold.
    destruct Hsub as [Heq | [Heq | [Heq | []]]]; [auto 10 | discriminate Heq ..].
  - intros save self context m Hm.
    exists (export_keywords self (mathutils.to_4x4 m)). split; [| split].
    + now apply export_execute_ok.
    + apply check_existing_is_a_property.
    + intros k Hk. now apply export_keywords_ignored.
  - intros load self context m Hm.
    exists (import_keywords self (mathutils.to_4x4 m)). split; [| split].
    + now apply import_execute_ok.
    + intros k Hk. now apply import_keywords_ignored.
    + intros k Hk Hnot Hrna. apply elem_of_dom. rewrite import_keywords_dom.
      unfold property_names, Import3DS.properties in Hk. simpl in Hk.
      unfold Import3DS.ignore in Hnot.
      unfold Spec.delegate_keys, Spec.ImportConfiguration, Spec.excluded.
      set_unfold. destruct_or!; subst; try tauto.
      all: left; split; [tauto | intros Hx; destruct_or!; discriminate].
Qed.

Lemma export_ignores_check_existing_witness :
  exists keywords,
    @Export3DS.execute no_tables unit _ echo Export3DS.defaults empty_context
      = echo Export3DS.defaults empty_context keywords
    /\ keywords !! "check_existing" = None.
Proof.
  destruct (@export_ignores_check_existing no_tables unit (gmap string value))
    as (_ & _ & _ & _ & Hexport & _).
  destruct (Hexport echo Export3DS.defaults empty_context mathutils.identity3)
    as (keywords & Hcall & _ & Hnone); [reflexivity |].
  exists keywords. split; [exact Hcall |].
  apply Hnone. unfold Export3DS.ignore. set_solver.
Defined.

(** C9.  With the orientation the decorator declares on both operators,
    forward ['Y'] and up ['Z'], the [global_matrix] that either [execute]
    passes to its delegate is the 4x4 identity. *)
Theorem default_axes_give_identity `{AxisTables} {World Status : Type} :
  (Import3DS.axis_forward Import3DS.defaults = AxisY
   /\ Import3DS.axis_up Import3DS.defaults = AxisZ
   /\ Export3DS.axis_forward Export3DS.defaults = AxisY
   /\ Export3DS.axis_up Export3DS.defaults = AxisZ)
  /\
  (forall (load : Import3DS.t -> Context -> gmap string value -> Run World Status)
          (self : Import3DS.t) (context : Context),
      Import3DS.axis_forward self = AxisY -> Import3DS.axis_up self = AxisZ ->
      exists keywords,
        Import3DS.execute load self context = load self context keywords
        /\ keywords !! "global_matrix" = Some (VMatrix mathutils.identity4))
  /\
  (forall (save : Export3DS.t -> Context -> gmap string value -> Run World Status)
          (self : Export3DS.t) (context : Context),
      Export3DS.axis_forward self = AxisY -> Export3DS.axis_up self = AxisZ ->
      exists keywords,
        Export3DS.execute save self context = save self context keywords
        /\ keywords !! "global_matrix" = Some (VMatrix mathutils.identity4)).
Proof.
  split; [repeat split | split].
  - intros load self context Hforward Hup.
    assert (Hm : import_axis_matrix self = Ok mathutils.identity3).
    { unfold import_axis_matrix. rewrite Hforward, Hup. apply axis_conversion_same. }
    exists (import_keywords self mathutils.identity4). split.
    + rewrite <- to_4x4_identity3. now apply import_execute_ok.
    + unfold import_keywords. apply lookup_insert_eq.
  - intros save self context Hforward Hup.
    assert (Hm : export_axis_matrix self = Ok mathutils.identity3).
    { unfold export_axis_matrix. rewrite Hforward, Hup. apply axis_conversion_same. }
    exists (export_keywords self mathutils.identity4). split.
    + rewrite <- to_4x4_identity3. now apply export_execute_ok.
    + unfold export_keywords. apply lookup_insert_eq.
Qed.

Lemma default_axes_give_identity_witness :
  (exists keywords,
     @Import3DS.execute no_tables unit _ echo Import3DS.defaults empty_context
       = echo Import3DS.defaults empty_context keywords
     /\ keywords !! "global_matrix" = Some (VMatrix mathutils.identity4))
  /\ (exists keywords,
     @Export3DS.execute no_tables unit _ echo Export3DS.defaults empty_context
       = echo Export3DS.defaults empty_context keywords
     /\ keywords !! "global_matrix" = Some (VMatrix mathutils.identity4)).
Proof.
  destruct (@default_axes_give_identity no_tables unit (gmap string value))
    as (_ & Himport & Hexport).
  split.
  - apply (Himport echo Import3DS.defaults empty_context); reflexivity.
  - apply (Hexport echo Export3DS.defaults empty_context); reflexivity.
Defined.

(** ** The panels *)

(** The identifier literals the panels compare with are the host's identifiers
    of the two operator classes; the classes' own [bl_idname] strings are
    different texts. *)
Lemma operator_identifiers :
  WM_operator_bl_idname Import3DS.bl_idname = "IMPORT_SCENE_OT_max3ds"
  /\ WM_operator_bl_idname Export3DS.bl_idname = "EXPORT_SCENE_OT_max3ds"
  /\ Import3DS.bl_idname <> "IMPORT_SCENE_OT_max3ds"
  /\ Export3DS.bl_idname <> "EXPORT_SCENE_OT_max3ds".
Proof. repeat split; (reflexivity || discriminate). Qed.

Lemma poll_spec (literal : string) (context : Context) (op : Operator.t) :
  active_operator (space_data context) = Some op ->
  (let? idname := getattr_bl_idname (active_operator (space_data context)) in
   Ok (String.eqb idname literal))
  = Ok (bool_decide (Operator.bl_idname op = literal)).
Proof.
  intros ->. simpl. f_equal.
  destruct (String.eqb_spec (Operator.bl_idname op) literal) as [Heq | Hne].
  - now rewrite bool_decide_eq_true_2.
  - now rewrite bool_decide_eq_false_2.
Qed.

(** C4.  In a context whose file browser has an active operator, each of the
    four panels' [poll] returns, and it returns true exactly when that
    operator's identifier is the one the host gives the panel's operator class:
    [Import3DS] for the two import panels, [Export3DS] for the two export
    panels. *)
Theorem poll_iff_owning_operator (context : Context) (op : Operator.t) :
  active_operator (space_data context) = Some op ->
  Forall (fun '(poll, owner) =>
            (exists b : bool, poll context = Ok b)
            /\ (poll context = Ok true <-> owned_by owner op))
         panel_polls.
Proof.
  intros Hactive. unfold panel_polls.
  destruct operator_identifiers as (Himport & Hexport & _).
  repeat (apply Forall_cons; split; [cbn beta iota; split |]); [.. | now constructor].
  all: unfold owned_by; rewrite ?Himport, ?Hexport;
       unfold MAX3DS_PT_import_include.poll, MAX3DS_PT_import_transform.poll,
              MAX3DS_PT_export_include.poll, MAX3DS_PT_export_transform.poll;
       cbv zeta; rewrite (poll_spec _ _ _ Hactive).
  all: try (eexists; reflexivity).
  all: split; [ intros [= Hb]; now apply bool_decide_eq_true_1 in Hb
              | intros Heq; f_equal; now apply bool_decide_eq_true_2 ].
Qed.

Lemma poll_iff_owning_operator_witness :
  MAX3DS_PT_import_include.poll (browsing (Import3DS.as_operator Import3DS.defaults)) = Ok true
  /\ MAX3DS_PT_export_transform.poll (browsing (Export3DS.as_operator Export3DS.defaults))
     = Ok true.
Proof.
  split.
  - pose proof (poll_iff_owning_operator
                  (browsing (Import3DS.as_operator Import3DS.defaults))
                  (Import3DS.as_operator Import3DS.defaults) eq_refl) as Hall.
    apply Forall_cons in Hall as [[_ Hiff] _]. apply Hiff. reflexivity.
  - pose proof (poll_iff_owning_operator
                  (browsing (Export3DS.as_operator Export3DS.defaults))
                  (Export3DS.as_operator Export3DS.defaults) eq_refl) as Hall.
    do 3 apply Forall_cons in Hall as [_ Hall].
    apply Forall_cons in Hall as [[_ Hiff] _]. apply Hiff. reflexivity.
Defined.

(** A panel does not answer for the other operator, nor for a foreign one. *)
Lemma poll_other_operator :
  MAX3DS_PT_import_include.poll (browsing (Export3DS.as_operator Export3DS.defaults))
    = Ok false
  /\ MAX3DS_PT_export_include.poll (browsing (Import3DS.as_operator Import3DS.defaults))
    = Ok false
  /\ MAX3DS_PT_import_transform.poll
       (browsing {| Operator.bl_idname := Import3DS.bl_idname; Operator.properties := [] |})
    = Ok false.
Proof. repeat split. Qed.

(** C10.  No [poll] guards the access to the active operator: in a context
    whose file browser has none, each of the four raises an attribute error
    and returns nothing; a [poll] returns a truth value exactly in the contexts
    that have an active operator. *)
Theorem poll_needs_active_operator (context : Context) :
  Forall (fun '(poll, _) =>
            (active_operator (space_data context) = None ->
             exists msg, poll context = Raise (AttributeError msg))
            /\ ((exists b : bool, poll context = Ok b)
                <-> is_Some (active_operator (space_data context))))
         panel_polls.
Proof.
  unfold panel_polls.
  repeat (apply Forall_cons; split; [cbn beta iota; split |]); [.. | now constructor].
  all: unfold MAX3DS_PT_import_include.poll, MAX3DS_PT_import_transform.poll,
              MAX3DS_PT_export_include.poll, MAX3DS_PT_export_transform.poll;
       destruct (active_operator (space_data context)) as [op|]; simpl.
  all: try discriminate; try (intros _; eexists; reflexivity).
  all: split;
       [ intros [b Hb]; first [discriminate Hb | eexists; reflexivity]
       | intros [x Hx]; first [discriminate Hx | eexists; reflexivity] ].
Qed.

Lemma poll_needs_active_operator_witness :
  exists msg, MAX3DS_PT_import_include.poll empty_context = Raise (AttributeError msg).
Proof.
  pose proof (poll_needs_active_operator empty_context) as Hall.
  apply Forall_cons in Hall as [[Hraise _] _]. apply Hraise. reflexivity.
Defined.

(** Without an active operator a panel's [draw] has set its two flags when the
    first widget is refused; nothing is placed on the layout. *)
Lemma draw_without_operator (context : Context) (layout : UILayout.t) :
  active_operator (space_data context) = None ->
  exists msg,
    MAX3DS_PT_import_include.draw context layout
    = (Raise (TypeError msg), drawn true true (Import3DS.as_operator Import3DS.defaults) [] layout).
Proof.
  intros Hnone. eexists. unfold MAX3DS_PT_import_include.draw. cbv zeta.
  rewrite Hnone. unfold drawn. simpl. rewrite app_nil_r. reflexivity.
Qed.



(** ** The menu callbacks *)

(** C7.  A call of [menu_func_import] puts exactly one entry at the end of the
    layout it is given, labelled "3D Studio (.3ds)" and bound to the identifier
    of [Import3DS]; a call of [menu_func_export] puts exactly one entry with
    the same label, bound to the identifier of [Export3DS].  Neither raises,
    neither depends on the context, and the rest of the layout stays as it
    was. *)
Theorem menu_funcs_add_one_entry (context : Context) (layout : UILayout.t) :
  menu_func_import context layout
    = (Ok tt,
       {| UILayout.use_property_split := UILayout.use_property_split layout;
          UILayout.use_property_decorate := UILayout.use_property_decorate layout;
          UILayout.items :=
            UILayout.items layout
              ++ [ItemOperator Import3DS.bl_idname "3D Studio (.3ds)"] |})
  /\ menu_func_export context layout
    = (Ok tt,
       {| UILayout.use_property_split := UILayout.use_property_split layout;
          UILayout.use_property_decorate := UILayout.use_property_decorate layout;
          UILayout.items :=
            UILayout.items layout
              ++ [ItemOperator Export3DS.bl_idname "3D Studio (.3ds)"] |})
  /\ length (UILayout.items (snd (menu_func_import context layout)))
     = S (length (UILayout.items layout))
  /\ length (UILayout.items (snd (menu_func_export context layout)))
     = S (length (UILayout.items layout))
  /\ (forall context',
        menu_func_import context' layout = menu_func_import context layout
        /\ menu_func_export context' layout = menu_func_export context layout).
Proof.
  unfold menu_func_import, menu_func_export, UILayout.operator, UILayout.add, modify.
  simpl. rewrite !length_app. simpl.
  repeat split; lia.
Qed.

(** ** Registration *)

Lemma register_class_fresh {A : Type} (cls : string) (k : unit -> Run bpy.Host A)
    (h : bpy.Host) :
  cls ∉ bpy.classes h ->
  run_bind (bpy.register_class cls) k h
  = k tt (bpy.set_classes ({[cls]} ∪ bpy.classes h) h).
Proof.
  intros Hfresh. unfold run_bind, bpy.register_class.
  now rewrite decide_False.
Qed.

Lemma register_class_twice {A : Type} (cls : string) (k : unit -> Run bpy.Host A)
    (h : bpy.Host) :
  cls ∈ bpy.classes h ->
  exists msg, run_bind (bpy.register_class cls) k h = (Raise (ValueError msg), h).
Proof.
  intros Hheld. eexists. unfold run_bind, bpy.register_class.
  now rewrite decide_True.
Qed.

Lemma unregister_class_held {A : Type} (cls : string) (k : unit -> Run bpy.Host A)
    (h : bpy.Host) :
  cls ∈ bpy.classes h ->
  run_bind (bpy.unregister_class cls) k h
  = k tt (bpy.set_classes (bpy.classes h ∖ {[cls]}) h).
Proof.
  intros Hheld. unfold run_bind, bpy.unregister_class.
  now rewrite decide_True.
Qed.

(** Removing a function that was appended to a list it was not in gives the
    list back. *)
Lemma list_remove_appended (f : string) (l : list string) :
  f ∉ l -> bpy.list_remove f (l ++ [f]) = Some l.
Proof.
  induction l as [|g l IH]; intros Hfresh; simpl.
  - now rewrite String.eqb_refl.
  - apply not_elem_of_cons in Hfresh as [Hne Hfresh].
    destruct (String.eqb_spec g f) as [Heq | _]; [congruence |].
    now rewrite IH.
Qed.

(** What [list.remove] leaves is what was there, in another order at most. *)
Lemma list_remove_perm (f : string) (l l' : list string) :
  bpy.list_remove f l = Some l' -> l ≡ₚ f :: l'.
Proof.
  revert l'. induction l as [|g l IH]; intros l'; simpl; [discriminate |].
  destruct (String.eqb_spec g f) as [-> | Hne].
  - intros [= <-]. reflexivity.
  - destruct (bpy.list_remove f l) as [rest|]; [| discriminate].
    intros [= <-]. rewrite (IH rest eq_refl). apply Permutation_swap.
Qed.

Lemma host_eq (h h' : bpy.Host) :
  bpy.classes h = bpy.classes h' ->
  bpy.file_import_draw_funcs h = bpy.file_import_draw_funcs h' ->
  bpy.file_export_draw_funcs h = bpy.file_export_draw_funcs h' ->
  h = h'.
Proof. destruct h, h'; simpl; now intros -> -> ->. Qed.

(** On a host that holds nothing of the add-on, [register] goes through and
    installs the six classes and the two menu functions. *)
Lemma register_ok (h : bpy.Host) :
  addon_absent h -> register h = (Ok tt, registered h).
Proof.
  intros (Hclasses & _ & _). unfold register.
  do 6 class_step @register_class_fresh.
  unfold run_bind, bpy.append, modify. simpl. f_equal.
  apply host_eq; simpl; [| reflexivity ..].
  unfold addon_classes. set_solver.
Qed.

(** On a host that holds the six classes, [unregister] goes through: it takes
    the six classes out and drops the first occurrence of each menu
    function. *)
Lemma unregister_ok (h : bpy.Host) :
  addon_classes ⊆ bpy.classes h ->
  unregister h
  = (Ok tt,
     {| bpy.classes := bpy.classes h ∖ addon_classes;
        bpy.file_import_draw_funcs :=
          default (bpy.file_import_draw_funcs h)
                  (bpy.list_remove "menu_func_import" (bpy.file_import_draw_funcs h));
        bpy.file_export_draw_funcs :=
          default (bpy.file_export_draw_funcs h)
                  (bpy.list_remove "menu_func_export" (bpy.file_export_draw_funcs h)) |}).
Proof.
  intros Hheld. unfold unregister.
  do 6 class_step @unregister_class_held.
  unfold run_bind, bpy.remove, modify. simpl. f_equal.
  destruct (bpy.list_remove "menu_func_import" _);
    destruct (bpy.list_remove "menu_func_export" _); simpl;
    (apply host_eq; simpl; [| reflexivity ..]);
    unfold addon_classes; set_solver.
Qed.

(** C3.  On a host that holds nothing of the add-on, [register] installs the
    classes [Import3DS], the two import panels, [Export3DS] and the two export
    panels, and appends [menu_func_import] to the import menu and
    [menu_func_export] to the export menu; [unregister] then takes out exactly
    these classes and these menu functions, and the host is as it was. *)
Theorem register_then_unregister (h : bpy.Host) :
  addon_absent h ->
  exists h',
    register h = (Ok tt, h')
    /\ bpy.classes h' ∖ bpy.classes h = addon_classes
    /\ bpy.draw_funcs bpy.TOPBAR_MT_file_import h'
       = (bpy.draw_funcs bpy.TOPBAR_MT_file_import h ++ ["menu_func_import"])%list
    /\ bpy.draw_funcs bpy.TOPBAR_MT_file_export h'
       = (bpy.draw_funcs bpy.TOPBAR_MT_file_export h ++ ["menu_func_export"])%list
    /\ unregister h' = (Ok tt, h).
Proof.
  intros Habsent. exists (registered h).
  pose proof Habsent as (Hclasses & Himport & Hexport).
  split; [now apply register_ok | split; [| split; [reflexivity | split; [reflexivity |]]]].
  - simpl. set_solver.
  - rewrite unregister_ok by (simpl; set_solver).
    simpl in *. rewrite !list_remove_appended by assumption. simpl.
    f_equal. apply host_eq; simpl; [set_solver | reflexivity ..].
Qed.

Lemma register_then_unregister_witness :
  exists h',
    register fresh_host = (Ok tt, h')
    /\ bpy.classes h' = addon_classes
    /\ unregister h' = (Ok tt, fresh_host).
Proof.
  assert (Habsent : addon_absent fresh_host).
  { unfold addon_absent, fresh_host. simpl. repeat split; set_solver. }
  destruct (register_then_unregister fresh_host Habsent)
    as (h' & Hreg & Hcls & _ & _ & Hunreg).
  exists h'. repeat split; [exact Hreg | | exact Hunreg].
  simpl in Hcls. rewrite <- Hcls. set_solver.
Defined.

(** Registering twice is refused by the host at the first class, and leaves
    the host as the first registration made it. *)
Lemma register_twice (h : bpy.Host) :
  addon_absent h ->
  exists msg, register (registered h) = (Raise (ValueError msg), registered h).
Proof.
  intros _. unfold register. apply register_class_twice.
  simpl. unfold addon_classes. set_solver.
Qed.

(** Where a menu already holds the function, [unregister] removes that earlier
    occurrence: the menu comes back in another order. *)
Lemma unregister_reorders_held_function :
  let h := {| bpy.classes := ∅;
              bpy.file_import_draw_funcs := ["menu_func_import"; "other"];
              bpy.file_export_draw_funcs := [] |} in
  exists h', register h = (Ok tt, h')
    /\ exists h'', unregister h' = (Ok tt, h'')
    /\ bpy.file_import_draw_funcs h'' = ["other"; "menu_func_import"].
Proof.
  intros h. exists (registered h). split.
  - unfold register. do 6 class_step @register_class_fresh.
    unfold run_bind, bpy.append, modify. simpl. f_equal.
  - eexists. split.
    + apply unregister_ok. simpl. set_solver.
    + reflexivity.
Qed.

(** * Further properties *)

(** ** Registration that fails half way *)

Lemma set_classes_twice (a b : gset string) (h : bpy.Host) :
  bpy.set_classes a (bpy.set_classes b h) = bpy.set_classes a h.
Proof. reflexivity. Qed.

Lemma set_classes_id (h : bpy.Host) (cs : gset string) :
  cs = bpy.classes h -> bpy.set_classes cs h = h.
Proof. intros ->. now destruct h. Qed.

Lemma addon_class_order_NoDup : NoDup addon_class_order.
Proof. unfold addon_class_order. distinct_names. Qed.

Lemma addon_class_order_set : list_to_set addon_class_order = addon_classes.
Proof. unfold addon_class_order, addon_classes. set_solver. Qed.

(** [register] is its six [register_class] calls, then the two appends. *)
Lemma register_unfold (h : bpy.Host) :
  register h
  = run_bind (register_classes addon_class_order)
      (fun _ => bpy.append bpy.TOPBAR_MT_file_import "menu_func_import" >>
                bpy.append bpy.TOPBAR_MT_file_export "menu_func_export") h.
Proof.
  unfold register, register_classes, addon_class_order. simpl. unfold run_bind.
  repeat match goal with
         | |- context [bpy.register_class ?c ?g] =>
             destruct (bpy.register_class c g) as [[[]|?] ?]; simpl; try reflexivity
         end.
Qed.

Lemma unregister_unfold (h : bpy.Host) :
  unregister h
  = run_bind (unregister_classes addon_class_order)
      (fun _ => bpy.remove bpy.TOPBAR_MT_file_import "menu_func_import" >>
                bpy.remove bpy.TOPBAR_MT_file_export "menu_func_export") h.
Proof.
  unfold unregister, unregister_classes, addon_class_order. simpl. unfold run_bind.
  repeat match goal with
         | |- context [bpy.unregister_class ?c ?g] =>
             destruct (bpy.unregister_class c g) as [[[]|?] ?]; simpl; try reflexivity
         end.
Qed.

(** Registering a list of distinct classes goes on as long as the classes are
    new to the host and stops at the first one the host holds. *)
Lemma register_classes_held (pre post : list string) (cls : string) (h : bpy.Host) :
  NoDup (pre ++ cls :: post) ->
  (forall c, c ∈ pre -> c ∉ bpy.classes h) ->
  cls ∈ bpy.classes h ->
  register_classes (pre ++ cls :: post) h
  = (Raise (ValueError "register_class(...): already registered as a subclass"),
     bpy.set_classes (list_to_set pre ∪ bpy.classes h) h).
Proof.
  revert h. induction pre as [|c pre IH]; intros h Hnodup Hfresh Hheld; simpl.
  - unfold run_bind, bpy.register_class. rewrite decide_True by assumption.
    f_equal. symmetry. apply set_classes_id. set_solver.
  - apply NoDup_cons in Hnodup as [Hc Hnodup].
    rewrite register_class_fresh by (apply Hfresh; set_solver).
    unfold register_classes in IH. rewrite IH; [| assumption | | simpl; set_solver].
    + rewrite set_classes_twice. f_equal. f_equal. simpl. set_solver.
    + intros c' Hc'. simpl. specialize (Hfresh c' ltac:(set_solver)).
      assert (c' <> c) by (intros ->; apply Hc; set_solver). set_solver.
Qed.

Lemma unregister_class_missing {A : Type} (cls : string) (k : unit -> Run bpy.Host A)
    (h : bpy.Host) :
  cls ∉ bpy.classes h ->
  run_bind (bpy.unregister_class cls) k h
  = (Raise (RuntimeError "unregister_class(...): not a registered as a subclass"), h).
Proof.
  intros Hmissing. unfold run_bind, bpy.unregister_class.
  now rewrite decide_False.
Qed.

Lemma unregister_classes_missing (pre post : list string) (cls : string) (h : bpy.Host) :
  NoDup (pre ++ cls :: post) ->
  (forall c, c ∈ pre -> c ∈ bpy.classes h) ->
  cls ∉ bpy.classes h ->
  unregister_classes (pre ++ cls :: post) h
  = (Raise (RuntimeError "unregister_class(...): not a registered as a subclass"),
     bpy.set_classes (bpy.classes h ∖ list_to_set pre) h).
Proof.
  revert h. induction pre as [|c pre IH]; intros h Hnodup Hheld Hmissing; simpl.
  - rewrite unregister_class_missing by assumption.
    f_equal. symmetry. apply set_classes_id. set_solver.
  - apply NoDup_cons in Hnodup as [Hc Hnodup].
    rewrite unregister_class_held by (apply Hheld; set_solver).
    unfold unregister_classes in IH. rewrite IH; [| assumption | | simpl; set_solver].
    + rewrite set_classes_twice. f_equal. f_equal. simpl. set_solver.
    + intros c' Hc'. simpl. specialize (Hheld c' ltac:(set_solver)).
      assert (c' <> c) by (intros ->; apply Hc; set_solver). set_solver.
Qed.

(** X1.  [register] does not undo what it has done when the host refuses a
    class: where the host already holds one of the six classes, [register]
    raises the host's [ValueError] at that class, the classes before it in
    [register]'s order stay registered, and neither menu function has been
    appended. *)
Theorem register_stops_at_held_class (h : bpy.Host) (pre post : list string)
    (cls : string) :
  addon_class_order = (pre ++ cls :: post)%list ->
  (forall c, c ∈ pre -> c ∉ bpy.classes h) ->
  cls ∈ bpy.classes h ->
  exists msg,
    register h
    = (Raise (ValueError msg), bpy.set_classes (list_to_set pre ∪ bpy.classes h) h).
Proof.
  intros Horder Hfresh Hheld. eexists.
  rewrite register_unfold. unfold run_bind at 1.
  rewrite Horder, (register_classes_held pre post cls h); try assumption.
  - reflexivity.
  - rewrite <- Horder. apply addon_class_order_NoDup.
Qed.

Lemma register_stops_at_held_class_witness :
  exists msg h',
    register export_held = (Raise (ValueError msg), h')
    /\ bpy.classes h'
       = {[ "Import3DS"; "MAX3DS_PT_import_include"; "MAX3DS_PT_import_transform";
            "Export3DS" ]}
    /\ bpy.file_import_draw_funcs h' = []
    /\ bpy.file_export_draw_funcs h' = [].
Proof.
  destruct (register_stops_at_held_class export_held
              ["Import3DS"; "MAX3DS_PT_import_include"; "MAX3DS_PT_import_transform"]
              ["MAX3DS_PT_export_include"; "MAX3DS_PT_export_transform"]
              "Export3DS") as [msg Hrun].
  - reflexivity.
  - intros c Hc. unfold export_held. simpl. set_unfold.
    destruct_or!; subst; try discriminate; tauto.
  - unfold export_held. simpl. set_solver.
  - exists msg. eexists. split; [exact Hrun |]. simpl.
    split; [| split; reflexivity]. set_solver.
Defined.

(** X2.  [unregister] stops likewise: where the host lacks one of the six
    classes, [unregister] raises at that class, the classes before it in
    [unregister]'s order have been taken out, and both menus are as they
    were, the add-on's menu functions still in them. *)
Theorem unregister_stops_at_missing_class (h : bpy.Host) (pre post : list string)
    (cls : string) :
  addon_class_order = (pre ++ cls :: post)%list ->
  (forall c, c ∈ pre -> c ∈ bpy.classes h) ->
  cls ∉ bpy.classes h ->
  exists e,
    unregister h
    = (Raise e, bpy.set_classes (bpy.classes h ∖ list_to_set pre) h).
Proof.
  intros Horder Hheld Hmissing. eexists.
  rewrite unregister_unfold. unfold run_bind at 1.
  rewrite Horder, (unregister_classes_missing pre post cls h); try assumption.
  - reflexivity.
  - rewrite <- Horder. apply addon_class_order_NoDup.
Qed.

Lemma unregister_stops_at_missing_class_witness :
  exists e, unregister fresh_host = (Raise e, fresh_host).
Proof.
  destruct (unregister_stops_at_missing_class fresh_host []
              (tail addon_class_order) "Import3DS") as [e Hrun].
  - reflexivity.
  - intros c Hc. set_solver.
  - unfold fresh_host. simpl. set_solver.
  - exists e. rewrite Hrun. reflexivity.
Defined.

(** ** Enabling and disabling, over and over *)

Lemma register_ok_disjoint (h : bpy.Host) :
  bpy.classes h ## addon_classes -> register h = (Ok tt, registered h).
Proof.
  intros Hclasses. unfold register.
  do 6 class_step @register_class_fresh.
  unfold run_bind, bpy.append, modify. simpl. f_equal.
  apply host_eq; simpl; [| reflexivity ..].
  unfold addon_classes. set_solver.
Qed.

Lemma others_app (f : string) (l k : list string) :
  others f (l ++ k) = (others f l ++ others f k)%list.
Proof. unfold others. apply List.filter_app. Qed.

Lemma others_self (f : string) : others f [f] = [].
Proof. unfold others. simpl. now rewrite String.eqb_refl. Qed.

Lemma others_cons_self (f : string) (l : list string) :
  others f (f :: l) = others f l.
Proof. unfold others. cbn [List.filter]. now rewrite String.eqb_refl. Qed.

Lemma others_cons_other (f g : string) (l : list string) :
  String.eqb g f = false -> others f (g :: l) = g :: others f l.
Proof. intros Hne. unfold others. cbn [List.filter]. now rewrite Hne. Qed.

(** Removing a function from a list it was appended to always finds one: the
    list comes back with the same functions as before, the other functions in
    the order they had. *)
Lemma list_remove_after_append (f : string) (l : list string) :
  exists l', bpy.list_remove f (l ++ [f]) = Some l'
             /\ l' ≡ₚ l
             /\ others f l' = others f l.
Proof.
  induction l as [|g l (l' & Hremove & Hperm & Hothers)].
  - exists []. simpl. rewrite String.eqb_refl.
    split; [reflexivity | split; reflexivity].
  - cbn [app bpy.list_remove]. destruct (String.eqb g f) eqn:Hgf.
    + apply String.eqb_eq in Hgf as ->.
      exists (l ++ [f])%list. split; [reflexivity | split].
      * symmetry. apply Permutation_cons_append.
      * now rewrite others_app, others_self, app_nil_r, others_cons_self.
    + exists (g :: l'). rewrite Hremove. split; [reflexivity | split].
      * now rewrite Hperm.
      * now rewrite !others_cons_other, Hothers by assumption.
Qed.

Lemma unregister_registered (h : bpy.Host) :
  addon_absent h -> unregister (registered h) = (Ok tt, h).
Proof.
  intros (Hclasses & Himport & Hexport).
  rewrite unregister_ok by (simpl; set_solver).
  simpl in *. rewrite !list_remove_appended by assumption. simpl.
  f_equal. apply host_eq; simpl; [set_solver | reflexivity ..].
Qed.

(** X3.  On any host that holds none of the six classes, also one whose menus
    already hold the add-on's functions, [register] followed by [unregister]
    goes through and leaves the class table as it was; each menu holds the
    same functions as before, and the functions of others keep their order. *)
Theorem register_unregister_up_to_order (h : bpy.Host) :
  bpy.classes h ## addon_classes ->
  exists h' h'',
    register h = (Ok tt, h')
    /\ unregister h' = (Ok tt, h'')
    /\ bpy.classes h'' = bpy.classes h
    /\ bpy.file_import_draw_funcs h'' ≡ₚ bpy.file_import_draw_funcs h
    /\ bpy.file_export_draw_funcs h'' ≡ₚ bpy.file_export_draw_funcs h
    /\ others "menu_func_import" (bpy.file_import_draw_funcs h'')
       = others "menu_func_import" (bpy.file_import_draw_funcs h)
    /\ others "menu_func_export" (bpy.file_export_draw_funcs h'')
       = others "menu_func_export" (bpy.file_export_draw_funcs h).
Proof.
  intros Hclasses. exists (registered h). eexists.
  split; [now apply register_ok_disjoint | split].
  - apply unregister_ok. simpl. set_solver.
  - simpl.
    destruct (list_remove_after_append "menu_func_import" (bpy.file_import_draw_funcs h))
      as (li & -> & Hpi & Hoi).
    destruct (list_remove_after_append "menu_func_export" (bpy.file_export_draw_funcs h))
      as (le & -> & Hpe & Hoe).
    simpl. repeat split; try assumption. set_solver.
Qed.

Lemma register_unregister_up_to_order_witness :
  exists h' h'',
    register menu_held = (Ok tt, h')
    /\ unregister h' = (Ok tt, h'')
    /\ bpy.file_import_draw_funcs h'' ≡ₚ ["menu_func_import"; "other"]
    /\ others "menu_func_import" (bpy.file_import_draw_funcs h'') = ["other"].
Proof.
  destruct (register_unregister_up_to_order menu_held)
    as (h' & h'' & Hreg & Hunreg & _ & Hperm & _ & Hothers & _).
  - unfold menu_held. simpl. set_solver.
  - exists h', h''. repeat split; assumption.
Defined.

(** X4.  On a host that holds nothing of the add-on, any number of rounds of
    [register] and [unregister] goes through and leaves the host as it was,
    and a [register] after them gives what a first [register] gives. *)
Theorem enable_disable_is_stable (h : bpy.Host) (n : nat) :
  addon_absent h ->
  enable_disable n h = (Ok tt, h)
  /\ run_bind (enable_disable n) (fun _ => register) h = register h.
Proof.
  intros Habsent.
  assert (Hrounds : enable_disable n h = (Ok tt, h)).
  { induction n as [|n IH]; [reflexivity |].
    simpl. unfold run_bind at 1. rewrite (register_ok h Habsent).
    unfold run_bind at 1. now rewrite (unregister_registered h Habsent). }
  split; [exact Hrounds |].
  unfold run_bind at 1. now rewrite Hrounds.
Qed.

Lemma enable_disable_is_stable_witness :
  enable_disable 3 fresh_host = (Ok tt, fresh_host).
Proof.
  apply (enable_disable_is_stable fresh_host 3).
  unfold addon_absent, fresh_host. simpl. repeat split; set_solver.
Defined.

(** ** Panels: who is shown, and what drawing needs *)

Lemma poll_true_inv (literal : string) (context : Context) :
  (let? idname := getattr_bl_idname (active_operator (space_data context)) in
   Ok (String.eqb idname literal)) = Ok true ->
  exists op, active_operator (space_data context) = Some op
             /\ Operator.bl_idname op = literal.
Proof.
  destruct (active_operator (space_data context)) as [op|]; simpl; [| discriminate].
  intros [= Heq]. exists op. split; [reflexivity | now apply String.eqb_eq].
Qed.

Lemma draws_with_operator (context : Context) (op : Operator.t) (layout : UILayout.t) :
  active_operator (space_data context) = Some op ->
  MAX3DS_PT_import_include.draw context layout
    = (Ok tt, drawn true true op import_include_widgets layout)
  /\ MAX3DS_PT_import_transform.draw context layout
    = (Ok tt, drawn true false op import_transform_widgets layout)
  /\ MAX3DS_PT_export_include.draw context layout
    = (Ok tt, drawn true true op export_include_widgets layout)
  /\ MAX3DS_PT_export_transform.draw context layout
    = (Ok tt, drawn true false op export_transform_widgets layout).
Proof.
  intros Hactive.
  unfold MAX3DS_PT_import_include.draw, MAX3DS_PT_import_transform.draw,
         MAX3DS_PT_export_include.draw, MAX3DS_PT_export_transform.draw.
  cbv zeta. rewrite Hactive. unfold drawn, UILayout.prop.
  unfold run_bind, UILayout.add, UILayout.set_use_property_split,
         UILayout.set_use_property_decorate, modify. simpl.
  rewrite <- ?app_assoc. simpl. repeat split.
Qed.

(** X5.  In every context the two import panels poll alike and the two export
    panels poll alike, and an import panel and an export panel never both poll
    true.  With an instance of [Import3DS] active, whatever its configuration,
    the import panels poll true and the export panels false; with an instance
    of [Export3DS] it is the other way round. *)
Theorem panels_follow_their_operator (context : Context) :
  MAX3DS_PT_import_include.poll context = MAX3DS_PT_import_transform.poll context
  /\ MAX3DS_PT_export_include.poll context = MAX3DS_PT_export_transform.poll context
  /\ ~ (MAX3DS_PT_import_include.poll context = Ok true
        /\ MAX3DS_PT_export_include.poll context = Ok true)
  /\ (forall self : Import3DS.t,
        map (fun '(poll, _) => poll (browsing (Import3DS.as_operator self))) panel_polls
        = [Ok true; Ok true; Ok false; Ok false])
  /\ (forall self : Export3DS.t,
        map (fun '(poll, _) => poll (browsing (Export3DS.as_operator self))) panel_polls
        = [Ok false; Ok false; Ok true; Ok true]).
Proof.
  split; [reflexivity | split; [reflexivity | split; [| split; intros self; reflexivity]]].
  intros [Himport Hexport].
  apply poll_true_inv in Himport as (op & Hactive & Hi).
  apply poll_true_inv in Hexport as (op' & Hactive' & He).
  rewrite Hactive in Hactive'. injection Hactive' as <-.
  rewrite Hi in He. discriminate He.
Qed.

(** X6.  A panel whose [poll] returned true can be drawn: [draw] then finds the
    active operator, raises nothing, and places the panel's widgets for that
    operator after what the layout holds. *)
Theorem visible_panel_draws (context : Context) (layout : UILayout.t) :
  (MAX3DS_PT_import_include.poll context = Ok true ->
   exists op, active_operator (space_data context) = Some op
     /\ MAX3DS_PT_import_include.draw context layout
        = (Ok tt, drawn true true op import_include_widgets layout))
  /\ (MAX3DS_PT_import_transform.poll context = Ok true ->
   exists op, active_operator (space_data context) = Some op
     /\ MAX3DS_PT_import_transform.draw context layout
        = (Ok tt, drawn true false op import_transform_widgets layout))
  /\ (MAX3DS_PT_export_include.poll context = Ok true ->
   exists op, active_operator (space_data context) = Some op
     /\ MAX3DS_PT_export_include.draw context layout
        = (Ok tt, drawn true true op export_include_widgets layout))
  /\ (MAX3DS_PT_export_transform.poll context = Ok true ->
   exists op, active_operator (space_data context) = Some op
     /\ MAX3DS_PT_export_transform.draw context layout
        = (Ok tt, drawn true false op export_transform_widgets layout)).
Proof.
  repeat split; intros Hpoll;
    apply poll_true_inv in Hpoll as (op & Hactive & _);
    exists op; (split; [exact Hactive |]);
    apply (draws_with_operator context op layout Hactive).
Qed.

Lemma visible_panel_draws_witness :
  exists op,
    MAX3DS_PT_export_transform.draw
      (browsing (Export3DS.as_operator Export3DS.defaults)) empty_layout
    = (Ok tt, drawn true false op export_transform_widgets empty_layout).
Proof.
  destruct (visible_panel_draws (browsing (Export3DS.as_operator Export3DS.defaults))
              empty_layout) as (_ & _ & _ & Hdraw).
  destruct (Hdraw eq_refl) as (op & _ & Hrun).
  exists op. exact Hrun.
Defined.

(** X7.  No [draw] guards the access to the active operator either: in a
    context without one, each of the four sets its two layout flags, is
    refused by the layout at its first property widget, and has placed
    nothing. *)
Theorem draw_needs_active_operator (context : Context) (layout : UILayout.t) :
  active_operator (space_data context) = None ->
  exists msg,
    let refused decorate :=
      (Raise (TypeError msg) : result unit,
       {| UILayout.use_property_split := true;
          UILayout.use_property_decorate := decorate;
          UILayout.items := UILayout.items layout |}) in
    MAX3DS_PT_import_include.draw context layout = refused true
    /\ MAX3DS_PT_import_transform.draw context layout = refused false
    /\ MAX3DS_PT_export_include.draw context layout = refused true
    /\ MAX3DS_PT_export_transform.draw context layout = refused false.
Proof.
  intros Hnone. eexists. cbv zeta.
  unfold MAX3DS_PT_import_include.draw, MAX3DS_PT_import_transform.draw,
         MAX3DS_PT_export_include.draw, MAX3DS_PT_export_transform.draw.
  cbv zeta. rewrite Hnone. unfold UILayout.prop.
  unfold run_bind, run_raise, UILayout.set_use_property_split,
         UILayout.set_use_property_decorate, modify. simpl.
  repeat split.
Qed.

Lemma draw_needs_active_operator_witness :
  exists msg,
    MAX3DS_PT_import_transform.draw empty_context empty_layout
    = (Raise (TypeError msg),
       {| UILayout.use_property_split := true;
          UILayout.use_property_decorate := false;
          UILayout.items := [] |}).
Proof.
  destruct (draw_needs_active_operator empty_context empty_layout eq_refl)
    as (msg & _ & Hdraw & _).
  exists msg. exact Hdraw.
Defined.

(** ** What the panels show and what the codec receives *)



(** The operator's own [draw] adds nothing to what its panels show. *)
Lemma import_shown_properties (self : Import3DS.t) (op : Operator.t) :
  panel_properties [Import3DS.draw self; MAX3DS_PT_import_include.draw;
                    MAX3DS_PT_import_transform.draw] op
  = (import_include_widgets ++ import_transform_widgets)%list.
Proof. reflexivity. Qed.

Lemma export_shown_properties (self : Export3DS.t) (op : Operator.t) :
  panel_properties [Export3DS.draw self; MAX3DS_PT_export_include.draw;
                    MAX3DS_PT_export_transform.draw] op
  = (export_include_widgets ++ export_transform_widgets)%list.
Proof. reflexivity. Qed.

(** X8.  An operator's own [draw] and its two panels together show every
    property of the operator once, and no other: for [Import3DS] all its
    properties but the RNA type entry, [filepath] and the hidden
    [filter_glob]; for [Export3DS] all its properties but the RNA type entry,
    [filepath] and the hidden [check_existing] and [filter_glob]. *)
Theorem panels_cover_the_options (importer : Import3DS.t) (exporter : Export3DS.t) :
  let import_shown :=
    panel_properties [Import3DS.draw importer; MAX3DS_PT_import_include.draw;
                      MAX3DS_PT_import_transform.draw]
                     (Import3DS.as_operator importer) in
  let export_shown :=
    panel_properties [Export3DS.draw exporter; MAX3DS_PT_export_include.draw;
                      MAX3DS_PT_export_transform.draw]
                     (Export3DS.as_operator exporter) in
  (import_shown ≡ₚ visible_properties (Import3DS.properties importer)
                     ["rna_type"; "filepath"; "filter_glob"])
  /\ NoDup import_shown
  /\ (export_shown ≡ₚ visible_properties (Export3DS.properties exporter)
                     ["rna_type"; "filepath"; "check_existing"; "filter_glob"])
  /\ NoDup export_shown.
Proof.
  cbv zeta. rewrite import_shown_properties, export_shown_properties.
  unfold import_include_widgets, import_transform_widgets,
         export_include_widgets, export_transform_widgets.
  unfold visible_properties, property_names, Import3DS.properties, Export3DS.properties.
  simpl.
  split; [| split; [| split]].
  - apply NoDup_Permutation; [distinct_names | distinct_names |].
    intros k. set_unfold. tauto.
  - distinct_names.
  - apply NoDup_Permutation; [distinct_names | distinct_names |].
    intros k. set_unfold. tauto.
  - distinct_names.
Qed.



(** ** An orientation the axis helper refuses *)

(** X10.  Where the configured forward and up directions lie on one coordinate
    axis, either [execute] raises the axis helper's exception; the delegate is
    not called, whatever it would do, and the world is as it was. *)
Theorem execute_refuses_one_axis `{AxisTables} {World Status : Type} :
  (forall (load : Import3DS.t -> Context -> gmap string value -> Run World Status)
          (self : Import3DS.t) (context : Context) (w : World),
      io_utils.same_axis (axis_identifier (Import3DS.axis_forward self))
                         (axis_identifier (Import3DS.axis_up self)) = Ok true ->
      exists msg, Import3DS.execute load self context w = (Raise (Exception msg), w))
  /\
  (forall (save : Export3DS.t -> Context -> gmap string value -> Run World Status)
          (self : Export3DS.t) (context : Context) (w : World),
      io_utils.same_axis (axis_identifier (Export3DS.axis_forward self))
                         (axis_identifier (Export3DS.axis_up self)) = Ok true ->
      exists msg, Export3DS.execute save self context w = (Raise (Exception msg), w)).
Proof.
  split.
  - intros load self context w Hclash.
    destruct (axis_conversion_clash _ _ Hclash) as (msg & Hfrom & _).
    exists msg. now apply import_execute_raise.
  - intros save self context w Hclash.
    destruct (axis_conversion_clash _ _ Hclash) as (msg & _ & Hto).
    exists msg. now apply export_execute_raise.
Qed.

Lemma execute_refuses_one_axis_witness :
  exists msg,
    @Import3DS.execute one_rotation nat unit counting z_forward_z_up empty_context 0%nat
    = (Raise (Exception msg), 0%nat).
Proof.
  destruct (@execute_refuses_one_axis one_rotation nat unit) as [Himport _].
  apply (Himport counting z_forward_z_up empty_context 0%nat). reflexivity.
Defined.

(** ** Loading the module *)

Lemma run_bind_modify {S A : Type} (f : S -> S) (k : unit -> Run S A) (s : S) :
  run_bind (modify f) k s = k tt (f s).
Proof. reflexivity. Qed.

Lemma run_bind_assoc {S A B C : Type} (a : Run S A) (b : A -> Run S B)
    (k : B -> Run S C) (s : S) :
  run_bind (run_bind a b) k s = run_bind a (fun x => run_bind (b x) k) s.
Proof. unfold run_bind. destruct (a s) as [[x|e] s']; reflexivity. Qed.

Lemma run_bind_if_bound {A : Type} (name : string) (c : Run Package.State unit)
    (k : unit -> Run Package.State A) (s : Package.State) :
  run_bind (Package.if_bound name c) k s
  = if bool_decide (name ∈ Package.globals s) then run_bind c k s else k tt s.
Proof.
  unfold run_bind, Package.if_bound.
  destruct (decide (name ∈ Package.globals s)) as [Hin | Hout].
  - now rewrite bool_decide_eq_true_2.
  - now rewrite bool_decide_eq_false_2.
Qed.

(** A name that a binding statement does not bind is bound after it exactly if
    it was bound before. *)
Lemma bound_after (name : string) (names : list string) (g : gset string) :
  name ∉ names ->
  bool_decide (name ∈ (list_to_set names ∪ g : gset string)) = bool_decide (name ∈ g).
Proof. intros Hout. apply bool_decide_ext. set_solver. Qed.

Lemma bound_now (name : string) (names : list string) (g : gset string) :
  name ∈ names ->
  bool_decide (name ∈ (list_to_set names ∪ g : gset string)) = true.
Proof. intros Hin. apply bool_decide_eq_true_2. set_solver. Qed.

Section Loading.

Variable reload_outcome : string -> result unit.

Lemma run_bind_reload {A : Type} (module : string)
    (k : unit -> Run Package.State A) (s : Package.State) :
  run_bind (Package.reload reload_outcome module) k s
  = let s' := {| Package.globals := Package.globals s;
                 Package.reload_calls := Package.reload_calls s ++ [module];
                 Package.host := Package.host s |} in
    match reload_outcome module with
    | Ok _ => k tt s'
    | Raise e => (Raise e, s')
    end.
Proof.
  unfold run_bind, Package.reload. cbv zeta.
  destruct (reload_outcome module) as [[]|e]; reflexivity.
Qed.

Ltac name_bound :=
  first [ rewrite bound_now by (set_unfold; tauto)
        | rewrite bound_after by (set_unfold; intros ?Hin; destruct_or!; discriminate) ].

(** The module's statements run one after the other on the state at hand. *)
Ltac run_module :=
  repeat first
    [ rewrite run_bind_assoc
    | rewrite run_bind_modify; cbn [Package.globals Package.reload_calls Package.host]
    | rewrite run_bind_if_bound; cbn [Package.globals Package.reload_calls Package.host];
      repeat name_bound
    | rewrite run_bind_reload; cbv zeta;
      cbn [Package.globals Package.reload_calls Package.host] ].

(** As long as no reload fails, the module runs to its last statement with its
    names bound and the codec modules that were bound reloaded; the guard on
    [bpy] never keeps it from looking. *)
Lemma body_runs (__name__ : string) (s : Package.State) :
  (forall m, m ∈ Package.bound_codecs (Package.globals s) -> reload_outcome m = Ok tt) ->
  Package.body reload_outcome __name__ s
  = (if String.eqb __name__ "__main__" then Package.on_host register else run_ret tt)
      {| Package.globals := Package.bound_names ∪ Package.globals s;
         Package.reload_calls :=
           Package.reload_calls s ++ Package.bound_codecs (Package.globals s);
         Package.host := Package.host s |}.
Proof.
  intros Hok. unfold Package.body, Package.bind_names.
  run_module.
  unfold Package.bound_codecs in *. cbn [List.filter] in *.
  destruct (bool_decide ("import_3ds" ∈ Package.globals s));
    destruct (bool_decide ("export_3ds" ∈ Package.globals s)).
  all: rewrite ?(Hok "import_3ds") by set_solver.
  all: rewrite ?(Hok "export_3ds") by set_solver.
  all: rewrite <- ?app_assoc, ?app_nil_r; cbn [app].
  all: f_equal; f_equal.
  all: unfold Package.bound_names; apply set_eq; intros x; set_unfold; tauto.
Qed.

(** A reload of [import_3ds] that fails ends the run there. *)
Lemma body_stops (__name__ : string) (s : Package.State) (e : exn) :
  "import_3ds" ∈ Package.globals s ->
  reload_outcome "import_3ds" = Raise e ->
  Package.body reload_outcome __name__ s
  = (Raise e,
     {| Package.globals :=
          list_to_set ["ImportHelper"; "ExportHelper"; "orientation_helper";
                       "axis_conversion"; "BoolProperty"; "EnumProperty";
                       "FloatProperty"; "StringProperty"; "bpy"; "bl_info";
                       "importlib"] ∪ Package.globals s;
        Package.reload_calls := Package.reload_calls s ++ ["import_3ds"];
        Package.host := Package.host s |}).
Proof.
  intros Hbound Hfail. unfold Package.body, Package.bind_names.
  run_module.
  rewrite (bool_decide_eq_true_2 _ Hbound), Hfail.
  f_equal. f_equal. apply set_eq; intros x; set_unfold; tauto.
Qed.

End Loading.

(** X11.  Loaded as a module, and as long as no reload fails, the file runs to
    its end, binds its names, and calls [importlib.reload] for exactly those of
    [import_3ds] and [export_3ds] that its namespace already binds, in this
    order, whether or not [bpy] was bound before; on a first load it reloads
    nothing.  It registers nothing: the host's state is as it was. *)
Theorem module_load_reloads_bound_codecs (reload_outcome : string -> result unit)
    (__name__ : string) (s : Package.State) :
  __name__ <> "__main__" ->
  (forall m, m ∈ Package.bound_codecs (Package.globals s) -> reload_outcome m = Ok tt) ->
  Package.body reload_outcome __name__ s
  = (Ok tt,
     {| Package.globals := Package.bound_names ∪ Package.globals s;
        Package.reload_calls :=
          Package.reload_calls s ++ Package.bound_codecs (Package.globals s);
        Package.host := Package.host s |})
  /\ ("import_3ds" ∉ Package.globals s -> "export_3ds" ∉ Package.globals s ->
      Package.bound_codecs (Package.globals s) = []).
Proof.
  intros Hname Hok. split.
  - rewrite (body_runs reload_outcome __name__ s Hok).
    apply String.eqb_neq in Hname. now rewrite Hname.
  - intros Hi He. unfold Package.bound_codecs. cbn [List.filter].
    now rewrite !bool_decide_eq_false_2 by assumption.
Qed.

Lemma module_load_reloads_bound_codecs_witness :
  exists s',
    Package.body (fun _ => Raise AssertionError) "io_scene_3ds" Package.first_load
    = (Ok tt, s')
    /\ Package.reload_calls s' = []
    /\ Package.host s' = fresh_host.
Proof.
  destruct (module_load_reloads_bound_codecs (fun _ => Raise AssertionError)
              "io_scene_3ds" Package.first_load) as [Hrun Hnone].
  - discriminate.
  - intros m Hm. unfold Package.bound_codecs, Package.first_load in Hm.
    cbn [List.filter Package.globals] in Hm.
    rewrite !bool_decide_eq_false_2 in Hm
      by (set_unfold; intros ?Hin; destruct_or!; discriminate).
    set_solver.
  - eexists. split; [exact Hrun |]. cbn [Package.reload_calls Package.host].
    rewrite Hnone; [split; reflexivity | |];
      unfold Package.first_load; cbn [Package.globals];
      set_unfold; intros ?Hin; destruct_or!; discriminate.
Defined.

(** X12.  Where the namespace binds [import_3ds] and reloading it raises, the
    load raises the same exception right there: [export_3ds] is not reloaded,
    none of the add-on's classes and functions gets bound, and the host's
    state is as it was. *)
Theorem failed_reload_stops_the_load (reload_outcome : string -> result unit)
    (__name__ : string) (s : Package.State) (e : exn) :
  "import_3ds" ∈ Package.globals s ->
  reload_outcome "import_3ds" = Raise e ->
  exists s',
    Package.body reload_outcome __name__ s = (Raise e, s')
    /\ Package.reload_calls s' = (Package.reload_calls s ++ ["import_3ds"])%list
    /\ Package.host s' = Package.host s
    /\ (forall name,
          name ∈ (addon_class_order
                  ++ ["menu_func_export"; "menu_func_import"; "register"; "unregister"])%list ->
          name ∈ Package.globals s' -> name ∈ Package.globals s).
Proof.
  intros Hbound Hfail. eexists. split; [now apply body_stops |].
  cbn [Package.reload_calls Package.host Package.globals].
  split; [reflexivity | split; [reflexivity |]].
  intros name Hname Hin. unfold addon_class_order in Hname.
  set_unfold. destruct Hin as [Hin | Hin]; [| exact Hin].
  destruct_or!; subst; discriminate.
Qed.

Lemma failed_reload_stops_the_load_witness :
  exists s',
    Package.body (fun _ => Raise (Exception "broken codec")) "io_scene_3ds"
      {| Package.globals := {["import_3ds"; "export_3ds"]};
         Package.reload_calls := [];
         Package.host := fresh_host |}
    = (Raise (Exception "broken codec"), s')
    /\ Package.reload_calls s' = ["import_3ds"].
Proof.
  destruct (failed_reload_stops_the_load (fun _ => Raise (Exception "broken codec"))
              "io_scene_3ds"
              {| Package.globals := {["import_3ds"; "export_3ds"]};
                 Package.reload_calls := [];
                 Package.host := fresh_host |}
              (Exception "broken codec"))
    as (s' & Hrun & Hcalls & _).
  - cbn [Package.globals]. set_solver.
  - reflexivity.
  - exists s'. split; [exact Hrun | exact Hcalls].
Defined.


